(** * OmniParse: model loader and API test client

    A shallow embedding of [omniparse/__init__.py] (the model loader and its
    shared holder) and of [tutorial_poc.py] (the HTTP test client, the test
    runner and the command line entry point), with the properties of their
    specification.

    Python code is embedded in a state-and-exception monad: a computation
    takes the world (the mutable holder, and the trace of the effects
    performed so far) and yields an outcome (a value, or a raised exception)
    with the new world.  State changes made before an exception is raised
    are kept, as in Python.  Calls into external libraries (torch,
    transformers, whisper, requests, the filesystem) are answered by an
    environment of oracles, over which every theorem is quantified. *)

From Stdlib Require Import String Ascii List ZArith Bool Lia DecimalString.
Import ListNotations.
Open Scope string_scope.
Set Warnings "-register-all".

(* ================================================================= *)
(** * Exceptions and outcomes *)

(** The classes of [Exception] instances the two programs can meet.  The
    first four are the [requests.exceptions] hierarchy rooted at
    [RequestException]; [InvalidJSONError] stands for itself and for its
    subclass [requests.exceptions.JSONDecodeError]. *)
Inductive exc_class : Type :=
| RequestException
| ConnectionError
| Timeout
| InvalidJSONError
| OSError
| ValueError
| TypeError
| AttributeError
| KeyError
| ImportError
| RuntimeError.

(** A raised exception.  [SystemExit] and [KeyboardInterrupt] derive from
    [BaseException] only; everything built with [Err] derives from
    [Exception]. *)
Inductive exn : Type :=
| SystemExit (code : Z)
| KeyboardInterrupt
| Err (c : exc_class) (msg : string).

(** [issubclass c requests.exceptions.RequestException]. *)
Definition subclass_of_RequestException (c : exc_class) : bool :=
  match c with
  | RequestException | ConnectionError | Timeout | InvalidJSONError => true
  | _ => false
  end.

(** [isinstance(e, Exception)]: what [except Exception] catches. *)
Definition isinstance_Exception (e : exn) : bool :=
  match e with
  | Err _ _ => true
  | _ => false
  end.

(** [isinstance(e, requests.exceptions.RequestException)]. *)
Definition isinstance_RequestException (e : exn) : bool :=
  match e with
  | Err c _ => subclass_of_RequestException c
  | _ => false
  end.

(** [str(e)]. *)
Definition str_exn (e : exn) : string :=
  match e with
  | SystemExit code => NilZero.string_of_int (Z.to_int code)
  | KeyboardInterrupt => ""
  | Err _ msg => msg
  end.

Inductive outcome (A : Type) : Type :=
| Returns (a : A)
| Raises (e : exn).
Arguments Returns {A} a.
Arguments Raises {A} e.

(* ================================================================= *)
(** * Effects *)

(** The multipart file part of a request: form field, file name and, when
    the caller gives one, the content type. *)
Record file_part : Type := mkFilePart {
  part_field : string;
  part_filename : string;
  part_content_type : option string
}.

Inductive http_method : Type := GET | POST.

(** The arguments of [requests.get] / [requests.post]. *)
Record request : Type := mkRequest {
  req_method : http_method;
  req_url : string;
  req_files : option file_part;
  req_data : list (string * string);
  req_params : list (string * string);
  req_headers : list (string * string);
  req_timeout : Z
}.

(** What a run does to the outside, in the order it does it. *)
Inductive event : Type :=
| EPrint (line : string)
| ECall (callee : string)
| ESleep (seconds : Z)
| EMakedirs (path : string)
| EWrite (path : string) (content : string)
| EOpen (path : string)
| EClose (path : string)
| EHttp (r : request).

Record world (H : Type) : Type := mkWorld {
  heap : H;
  trace : list event
}.
Arguments mkWorld {H} heap trace.
Arguments heap {H} w.
Arguments trace {H} w.

Definition M (H A : Type) : Type := world H -> outcome A * world H.

Definition ret {H A : Type} (a : A) : M H A := fun w => (Returns a, w).

Definition bind {H A B : Type} (c : M H A) (k : A -> M H B) : M H B :=
  fun w =>
    match c w with
    | (Returns a, w') => k a w'
    | (Raises e, w') => (Raises e, w')
    end.

Definition raise {H A : Type} (e : exn) : M H A := fun w => (Raises e, w).

(** [try: body  except C as e: handler e], where [catches] decides
    [isinstance(e, C)]. *)
Definition try_except {H A : Type} (catches : exn -> bool)
    (body : M H A) (handler : exn -> M H A) : M H A :=
  fun w =>
    match body w with
    | (Returns a, w') => (Returns a, w')
    | (Raises e, w') => if catches e then handler e w' else (Raises e, w')
    end.

Declare Scope py_scope.
Delimit Scope py_scope with py.
Notation "x <- c ;; k" := (bind c (fun x => k))
  (at level 61, c at next level, right associativity) : py_scope.
Notation "c ;; k" := (bind c (fun _ => k))
  (at level 61, right associativity) : py_scope.
Open Scope py_scope.

Definition emit {H : Type} (ev : event) : M H unit :=
  fun w => (Returns tt, mkWorld (heap w) (trace w ++ [ev])).

Definition print {H : Type} (line : string) : M H unit := emit (EPrint line).

(** A call into an external library: it is recorded, and the environment's
    answer [res] is its outcome. *)
Definition extcall {H A : Type} (callee : string) (res : outcome A) : M H A :=
  fun w => (res, mkWorld (heap w) (trace w ++ [ECall callee])).

Definition modify {H : Type} (f : H -> H) : M H unit :=
  fun w => (Returns tt, mkWorld (f (heap w)) (trace w)).

Definition when {H : Type} (b : bool) (c : M H unit) : M H unit :=
  if b then c else ret tt.

(* ================================================================= *)
(** * The model loader ([omniparse/__init__.py]) *)

Module Loader.

(** A loaded model, processor or crawler: an object, never [None]. *)
Inductive pyobj : Type := PyObj (id : nat).

(** [class SharedState(BaseModel)]: every field is [Any = None]. *)
Record SharedState : Type := mkSharedState {
  model_list : option pyobj;
  vision_model : option pyobj;
  vision_processor : option pyobj;
  whisper_model : option pyobj;
  crawler : option pyobj
}.

(** [shared_state = SharedState()]. *)
Definition shared_state : SharedState := mkSharedState None None None None None.

Definition set_model_list (v : option pyobj) (s : SharedState) : SharedState :=
  mkSharedState v (vision_model s) (vision_processor s) (whisper_model s) (crawler s).
Definition set_vision_model (v : option pyobj) (s : SharedState) : SharedState :=
  mkSharedState (model_list s) v (vision_processor s) (whisper_model s) (crawler s).
Definition set_vision_processor (v : option pyobj) (s : SharedState) : SharedState :=
  mkSharedState (model_list s) (vision_model s) v (whisper_model s) (crawler s).
Definition set_whisper_model (v : option pyobj) (s : SharedState) : SharedState :=
  mkSharedState (model_list s) (vision_model s) (vision_processor s) v (crawler s).
Definition set_crawler (v : option pyobj) (s : SharedState) : SharedState :=
  mkSharedState (model_list s) (vision_model s) (vision_processor s) (whisper_model s) v.

(** The answers of the libraries the loader calls.  [print_omniparse_text_art]
    and [WebCrawler] are code of this repository that [__init__.py] only
    imports; they are taken as parameters like the external libraries. *)
Record Env : Type := mkEnv {
  print_omniparse_text_art : outcome unit;
  cuda_is_available : bool;
  load_all_models : outcome pyobj;
  AutoModelForCausalLM_from_pretrained : string -> bool -> outcome pyobj;
  module_to : pyobj -> string -> outcome pyobj;
  AutoProcessor_from_pretrained : string -> bool -> outcome pyobj;
  whisper_load_model : string -> outcome pyobj;
  WebCrawler : bool -> outcome pyobj
}.

Section Load.
Variable E : Env.

Definition LM := M SharedState.

(** Lines 51-63: the guarded load of the vision model and its processor. *)
Definition load_vision (device : string) : LM unit :=
  try_except isinstance_Exception
    (m <- extcall "AutoModelForCausalLM.from_pretrained"
            (AutoModelForCausalLM_from_pretrained E "microsoft/Florence-2-base" true) ;;
     m' <- extcall "to" (module_to E m device) ;;
     modify (set_vision_model (Some m')) ;;
     p <- extcall "AutoProcessor.from_pretrained"
            (AutoProcessor_from_pretrained E "microsoft/Florence-2-base" true) ;;
     modify (set_vision_processor (Some p)) ;;
     print "[LOG] ✅ Vision Model loaded successfully")
    (fun e =>
       print ("[LOG] ⚠️  Failed to load Vision Model: " ++ str_exn e) ;;
       print "[LOG] 📌 Vision model features will be disabled. Install flash-attn to enable vision model support." ;;
       modify (set_vision_model None) ;;
       modify (set_vision_processor None)).

(** Lines 46-63: [if load_documents:]. *)
Definition load_documents_step (device : string) : LM unit :=
  print "[LOG] ✅ Loading OCR Model" ;;
  ml <- extcall "load_all_models" (load_all_models E) ;;
  modify (set_model_list (Some ml)) ;;
  print "[LOG] ✅ Loading Vision Model" ;;
  load_vision device.

(** Lines 65-67: [if load_media:]. *)
Definition load_media_step : LM unit :=
  print "[LOG] ✅ Loading Audio Model" ;;
  wm <- extcall "whisper.load_model" (whisper_load_model E "small") ;;
  modify (set_whisper_model (Some wm)).

(** Lines 69-71: [if load_web:]. *)
Definition load_web_step : LM unit :=
  print "[LOG] ✅ Loading Web Crawler" ;;
  c <- extcall "WebCrawler" (WebCrawler E true) ;;
  modify (set_crawler (Some c)).

(** What follows the documents block: lines 65-71. *)
Definition load_media_and_web (load_media load_web : bool) : LM unit :=
  when load_media load_media_step ;;
  when load_web load_web_step.

(** Lines 42-71. *)
Definition load_omnimodel (load_documents load_media load_web : bool) : LM unit :=
  extcall "print_omniparse_text_art" (print_omniparse_text_art E) ;;
  let device := if cuda_is_available E then "cuda" else "cpu" in
  when load_documents (load_documents_step device) ;;
  load_media_and_web load_media load_web.

End Load.

(** The holders the process can be in: the initial one, and the holder left
    by a call to [load_omnimodel] from a reachable holder, when that call
    returned or failed with an exception derived from [Exception]. *)
Definition survivable (o : outcome unit) : bool :=
  match o with
  | Returns _ => true
  | Raises e => isinstance_Exception e
  end.

Inductive reachable : SharedState -> Prop :=
| reachable_init : reachable shared_state
| reachable_call (E : Env) (load_documents load_media load_web : bool)
    (s : SharedState) (tr : list event) :
    reachable s ->
    survivable (fst (load_omnimodel E load_documents load_media load_web
                       (mkWorld s tr))) = true ->
    reachable (heap (snd (load_omnimodel E load_documents load_media load_web
                            (mkWorld s tr)))).

(** The vision model is there exactly when its processor is. *)
Definition vision_paired (s : SharedState) : Prop :=
  vision_model s <> None <-> vision_processor s <> None.

(** The outcome of the three library calls of the vision load, in order:
    the model, its move to the device, the processor. *)
Definition vision_load (E : Env) : outcome (pyobj * pyobj) :=
  match AutoModelForCausalLM_from_pretrained E "microsoft/Florence-2-base" true with
  | Raises e => Raises e
  | Returns m =>
      match module_to E m (if cuda_is_available E then "cuda" else "cpu") with
      | Raises e => Raises e
      | Returns m' =>
          match AutoProcessor_from_pretrained E "microsoft/Florence-2-base" true with
          | Raises e => Raises e
          | Returns p => Returns (m', p)
          end
      end
  end.

(** ** The accessors *)

(** [get_shared_state()]: lines 74-75. *)
Definition get_shared_state : M SharedState SharedState :=
  fun w => (Returns (heap w), w).

(** [get_active_models()]: lines 78-82.  [str_state] is [str(shared_state)],
    the text pydantic gives the holder. *)
Definition get_active_models (str_state : SharedState -> string)
  : M SharedState SharedState :=
  s <- get_shared_state ;;
  print (str_state s) ;;
  get_shared_state.

(** The library calls of a trace, in order. *)
Definition library_calls (tr : list event) : list string :=
  flat_map (fun ev => match ev with ECall callee => [callee] | _ => [] end) tr.

(** The lines printed in a trace, in order. *)
Definition printed_lines (tr : list event) : list string :=
  flat_map (fun ev => match ev with EPrint line => [line] | _ => [] end) tr.

(** ** Environments for the examples *)

(** Every library call succeeds. *)
Definition env_ok : Env :=
  mkEnv (Returns tt) false (Returns (PyObj 1))
        (fun _ _ => Returns (PyObj 2))
        (fun m _ => Returns m)
        (fun _ _ => Returns (PyObj 3))
        (fun _ => Returns (PyObj 4))
        (fun _ => Returns (PyObj 5)).

(** As [env_ok], but loading the vision model ends with [model] and loading
    its processor with [processor]. *)
Definition env_vision (model processor : outcome pyobj) : Env :=
  mkEnv (Returns tt) false (Returns (PyObj 1))
        (fun _ _ => model)
        (fun m _ => Returns m)
        (fun _ _ => processor)
        (fun _ => Returns (PyObj 4))
        (fun _ => Returns (PyObj 5)).

(** The missing optional dependency. *)
Definition flash_attn_missing : exn :=
  Err ImportError "flash_attn is not installed".

(** ** Notions for the further properties *)

(** The documents block does not fail: it is not asked for, or the document
    models load and the vision load returns or raises something
    [except Exception] catches. *)
Definition documents_step_passes (E : Env) (load_documents : bool) : Prop :=
  load_documents = false \/
  ((exists ml, load_all_models E = Returns ml) /\
   match vision_load E with
   | Returns _ => True
   | Raises e => isinstance_Exception e = true
   end).

(** The whisper load fails; everything else succeeds. *)
Definition env_whisper_fails : Env :=
  mkEnv (Returns tt) false (Returns (PyObj 1))
    (fun _ _ => Returns (PyObj 2)) (fun m _ => Returns m)
    (fun _ _ => Returns (PyObj 3))
    (fun _ => Raises (Err RuntimeError "checksum mismatch"))
    (fun _ => Returns (PyObj 5)).

End Loader.

(* ================================================================= *)
(** * The API test client ([tutorial_poc.py]) *)

Module Client.

(** ** Python values *)

(** The values that travel through the client: what [response.json()]
    yields and what the result dictionaries hold.  A float carries only
    whether it is non-zero (its truth value); a Python [dict] is an
    association list in insertion order. *)
Inductive json : Type :=
| JNull
| JBool (b : bool)
| JInt (z : Z)
| JFloat (nonzero : bool) (literal : string)
| JStr (s : string)
| JArr (items : list json)
| JObj (fields : list (string * json)).

Definition dict : Type := list (string * json).

Fixpoint dict_get (d : dict) (k : string) : option json :=
  match d with
  | [] => None
  | (k', v) :: rest => if String.eqb k k' then Some v else dict_get rest k
  end.

(** [d.get(k, default)]. *)
Definition get_default (d : dict) (k : string) (default : json) : json :=
  match dict_get d k with
  | Some v => v
  | None => default
  end.

(** [k in d]. *)
Definition dict_in (k : string) (d : dict) : bool :=
  match dict_get d k with
  | Some _ => true
  | None => false
  end.

(** [d[k] = v]: an existing key keeps its place, a new one goes last. *)
Fixpoint dict_set (d : dict) (k : string) (v : json) : dict :=
  match d with
  | [] => [(k, v)]
  | (k', v') :: rest =>
      if String.eqb k k' then (k', v) :: rest else (k', v') :: dict_set rest k v
  end.

(** [bool(v)]. *)
Definition truthy (v : json) : bool :=
  match v with
  | JNull => false
  | JBool b => b
  | JInt z => negb (Z.eqb z 0)
  | JFloat nonzero _ => nonzero
  | JStr s => negb (String.eqb s "")
  | JArr items => match items with [] => false | _ => true end
  | JObj fields => match fields with [] => false | _ => true end
  end.

(** [type(v).__name__], for the messages of the errors below. *)
Definition type_name (v : json) : string :=
  match v with
  | JNull => "NoneType"
  | JBool _ => "bool"
  | JInt _ => "int"
  | JFloat _ _ => "float"
  | JStr _ => "str"
  | JArr _ => "list"
  | JObj _ => "dict"
  end.

Definition str_of_Z (z : Z) : string := NilZero.string_of_int (Z.to_int z).
Definition str_of_nat (n : nat) : string := str_of_Z (Z.of_nat n).

(** [s * n] on strings. *)
Fixpoint str_mul (s : string) (n : nat) : string :=
  match n with
  | O => ""
  | S n' => s ++ str_mul s n'
  end.

(** [s[:n]], also for a negative [n]. *)
Definition str_prefix (s : string) (n : Z) : string :=
  if (0 <=? n)%Z then substring 0 (Z.to_nat n) s
  else substring 0 (Z.to_nat (Z.of_nat (String.length s) + n)) s.

(** [x in (a, b, ...)] on strings. *)
Definition in_tuple (x : string) (t : list string) : bool :=
  existsb (String.eqb x) t.

(** [bool(s)] for an optional command line argument. *)
Definition given (a : option string) : bool :=
  match a with
  | Some s => negb (String.eqb s "")
  | None => false
  end.

(** The pure library functions the script calls, kept as parameters:
    [os.path.basename], [os.path.splitext], [os.path.join], [str.lower],
    [str()] of a float, list or dict, and [json.dumps(v, indent=2)]. *)
Record PyLib : Type := mkPyLib {
  path_basename : string -> string;
  path_splitext : string -> string * string;
  path_join : string -> string -> string;
  str_lower : string -> string;
  py_repr : json -> string;
  json_dumps : json -> string
}.

(** [response]: status code, body text and what [response.json()] does. *)
Record response : Type := mkResponse {
  status_code : Z;
  text : string;
  json_body : outcome json
}.

(** The answers of the filesystem and of the network. *)
Record Env : Type := mkEnv {
  path_exists : string -> bool;
  open_rb : string -> outcome unit;
  makedirs : string -> outcome unit;
  write_text : string -> string -> outcome unit;
  http : request -> outcome response
}.

(** [OmniParseAPIClient]. *)
Record OmniParseAPIClient : Type := mkClient {
  base_url : string;
  host : string;
  port : Z
}.

(** [__init__]. *)
Definition new_client (host : string) (port : Z) : OmniParseAPIClient :=
  mkClient ("http://" ++ host ++ ":" ++ str_of_Z port) host port.

Definition CM := M unit.

Section Calls.
Variable L : PyLib.
Variable E : Env.

(** [requests.get(url, timeout=...)]. *)
Definition requests_get (url : string) (timeout : Z) : CM response :=
  let r := mkRequest GET url None [] [] [] timeout in
  emit (EHttp r) ;; (fun w => (http E r, w)).

(** [requests.post(url, files=..., data=..., params=..., headers=...,
    timeout=...)]. *)
Definition requests_post (url : string) (files : option file_part)
    (data params headers : list (string * string)) (timeout : Z) : CM response :=
  let r := mkRequest POST url files data params headers timeout in
  emit (EHttp r) ;; (fun w => (http E r, w)).

(** [response.json()]. *)
Definition response_json (r : response) : CM json :=
  fun w => (json_body r, w).

(** [with open(path, "rb") as f: body]: the file is closed however the
    body ends. *)
Definition with_open_rb {A : Type} (path : string) (body : CM A) : CM A :=
  emit (EOpen path) ;;
  (fun w =>
     match open_rb E path with
     | Raises e => (Raises e, w)
     | Returns _ =>
         let (o, w') := body w in
         (o, mkWorld (heap w') (trace w' ++ [EClose path]))
     end).

(** Lines 37-47. *)
Definition test_health (c : OmniParseAPIClient) : CM dict :=
  try_except isinstance_RequestException
    (response <- requests_get (base_url c ++ "/") 5 ;;
     data <- (if negb (String.eqb (text response) "") then response_json response
              else ret (JObj [("message", JStr "Server is running")])) ;;
     ret [("success", JBool true);
          ("status_code", JInt (status_code response));
          ("data", data)])
    (fun e => ret [("success", JBool false); ("error", JStr (str_exn e))]).

(** Lines 49-75. *)
Definition parse_document (c : OmniParseAPIClient) (file_path : string) : CM dict :=
  if negb (path_exists E file_path) then
    ret [("success", JBool false);
         ("error", JStr ("File not found: " ++ file_path))]
  else
    try_except isinstance_RequestException
      (with_open_rb file_path
         (let files := mkFilePart "file" (path_basename L file_path) (Some "application/pdf") in
          response <- requests_post (base_url c ++ "/parse_document")
                        (Some files) [] [] [] 300 ;;
          data <- response_json response ;;
          ret [("success", JBool true);
               ("status_code", JInt (status_code response));
               ("data", data)]))
      (fun e => ret [("success", JBool false); ("error", JStr (str_exn e))]).

(** Lines 89-108. *)
Definition _parse_file_endpoint (c : OmniParseAPIClient) (endpoint file_path : string) : CM dict :=
  if negb (path_exists E file_path) then
    ret [("success", JBool false);
         ("error", JStr ("File not found: " ++ file_path))]
  else
    try_except isinstance_RequestException
      (with_open_rb file_path
         (let files := mkFilePart "file" (path_basename L file_path) None in
          response <- requests_post (base_url c ++ endpoint)
                        (Some files) [] [] [] 300 ;;
          data <- response_json response ;;
          ret [("success", JBool true);
               ("status_code", JInt (status_code response));
               ("data", data)]))
      (fun e => ret [("success", JBool false); ("error", JStr (str_exn e))]).

(** Lines 77-87. *)
Definition parse_document_pdf (c : OmniParseAPIClient) (file_path : string) : CM dict :=
  _parse_file_endpoint c "/parse_document/pdf" file_path.

Definition parse_document_ppt (c : OmniParseAPIClient) (file_path : string) : CM dict :=
  _parse_file_endpoint c "/parse_document/ppt" file_path.

Definition parse_document_docs (c : OmniParseAPIClient) (file_path : string) : CM dict :=
  _parse_file_endpoint c "/parse_document/docs" file_path.

(** Lines 110-136. *)
Definition parse_image (c : OmniParseAPIClient) (file_path : string) : CM dict :=
  if negb (path_exists E file_path) then
    ret [("success", JBool false);
         ("error", JStr ("File not found: " ++ file_path))]
  else
    try_except isinstance_RequestException
      (with_open_rb file_path
         (let files := mkFilePart "file" (path_basename L file_path) None in
          response <- requests_post (base_url c ++ "/parse_image/image")
                        (Some files) [] [] [] 300 ;;
          data <- response_json response ;;
          ret [("success", JBool true);
               ("status_code", JInt (status_code response));
               ("data", data)]))
      (fun e => ret [("success", JBool false); ("error", JStr (str_exn e))]).

(** Lines 138-169. *)
Definition process_image (c : OmniParseAPIClient) (file_path task : string) : CM dict :=
  if negb (path_exists E file_path) then
    ret [("success", JBool false);
         ("error", JStr ("File not found: " ++ file_path))]
  else
    try_except isinstance_RequestException
      (with_open_rb file_path
         (let files := mkFilePart "image" (path_basename L file_path) None in
          response <- requests_post (base_url c ++ "/parse_image/process_image")
                        (Some files) [("task", task)] [] [] 300 ;;
          data <- response_json response ;;
          ret [("success", JBool true);
               ("status_code", JInt (status_code response));
               ("data", data)]))
      (fun e => ret [("success", JBool false); ("error", JStr (str_exn e))]).

(** Lines 171-197. *)
Definition parse_media_audio (c : OmniParseAPIClient) (file_path : string) : CM dict :=
  if negb (path_exists E file_path) then
    ret [("success", JBool false);
         ("error", JStr ("File not found: " ++ file_path))]
  else
    try_except isinstance_RequestException
      (with_open_rb file_path
         (let files := mkFilePart "file" (path_basename L file_path) None in
          response <- requests_post (base_url c ++ "/parse_media/audio")
                        (Some files) [] [] [] 600 ;;
          data <- response_json response ;;
          ret [("success", JBool true);
               ("status_code", JInt (status_code response));
               ("data", data)]))
      (fun e => ret [("success", JBool false); ("error", JStr (str_exn e))]).

(** Lines 199-225. *)
Definition parse_media_video (c : OmniParseAPIClient) (file_path : string) : CM dict :=
  if negb (path_exists E file_path) then
    ret [("success", JBool false);
         ("error", JStr ("File not found: " ++ file_path))]
  else
    try_except isinstance_RequestException
      (with_open_rb file_path
         (let files := mkFilePart "file" (path_basename L file_path) None in
          response <- requests_post (base_url c ++ "/parse_media/video")
                        (Some files) [] [] [] 600 ;;
          data <- response_json response ;;
          ret [("success", JBool true);
               ("status_code", JInt (status_code response));
               ("data", data)]))
      (fun e => ret [("success", JBool false); ("error", JStr (str_exn e))]).

(** Lines 227-249. *)
Definition parse_website (c : OmniParseAPIClient) (url : string) : CM dict :=
  try_except isinstance_RequestException
    (response <- requests_post (base_url c ++ "/parse_website/parse") None
                   [] [("url", url)] [("accept", "application/json")] 60 ;;
     data <- response_json response ;;
     ret [("success", JBool true);
          ("status_code", JInt (status_code response));
          ("data", data)])
    (fun e => ret [("success", JBool false); ("error", JStr (str_exn e))]).

(** ** Printing a response *)

Definition nl : string := String (ascii_of_nat 10) "".

(** [str(v)], as an f-string or [print] shows a value. *)
Definition format_value (v : json) : string :=
  match v with
  | JNull => "None"
  | JBool true => "True"
  | JBool false => "False"
  | JInt z => str_of_Z z
  | JStr s => s
  | _ => py_repr L v
  end.

(** [v.get(k, default)]: only a dict has [get]. *)
Definition py_get (v : json) (k : string) (default : json) : CM json :=
  match v with
  | JObj d => ret (get_default d k default)
  | _ => raise (Err AttributeError
                  ("'" ++ type_name v ++ "' object has no attribute 'get'"))
  end.

(** [len(v)]. *)
Definition py_len (v : json) : CM nat :=
  match v with
  | JStr s => ret (String.length s)
  | JArr items => ret (List.length items)
  | JObj d => ret (List.length d)
  | _ => raise (Err TypeError
                  ("object of type '" ++ type_name v ++ "' has no len()"))
  end.

(** [v[:n] + "..."]: a string is cut; a list cannot be joined to a string
    and a dict cannot be sliced (a [TypeError]; from Python 3.12 on the
    dict case is a [KeyError], an [Exception] all the same). *)
Definition py_truncate (v : json) (n : Z) : CM string :=
  match v with
  | JStr s => ret (str_prefix s n ++ "...")
  | JArr _ => raise (Err TypeError "can only concatenate list (not 'str') to list")
  | _ => raise (Err TypeError ("'" ++ type_name v ++ "' object cannot be sliced"))
  end.

(** What a [for] loop over [v] visits: the items of a list, the characters
    of a string, the keys of a dict. *)
Definition py_iter (v : json) : list json :=
  match v with
  | JArr items => items
  | JStr s => map (fun c => JStr (String c "")) (list_ascii_of_string s)
  | JObj d => map (fun kv => JStr (fst kv)) d
  | _ => []
  end.

(** Lines 276-277: the loop over [enumerate(data["images"])], from index
    [i]. *)
Fixpoint print_images (i : nat) (imgs : list json) : CM unit :=
  match imgs with
  | [] => ret tt
  | img :: rest =>
      filename <- py_get img "filename" (JStr "N/A") ;;
      image <- py_get img "image" (JStr "") ;;
      size <- py_len image ;;
      print ("  Image " ++ str_of_nat (i + 1) ++ ": " ++ format_value filename
             ++ " - size: " ++ str_of_nat size ++ " chars") ;;
      print_images (S i) rest
  end.

(** Lines 251-281.  Past [data.get("text", "")] the payload is a dict: the
    last branch of the final [match] is never taken. *)
Definition print_response (c : OmniParseAPIClient) (response : dict)
    (max_text_length : Z) : CM unit :=
  if negb (truthy (get_default response "success" JNull)) then
    print ("[ERROR] " ++ format_value (get_default response "error" (JStr "Unknown error")))
  else
    print ("[INFO] Status: " ++ format_value (get_default response "status_code" (JStr "N/A"))) ;;
    let data := get_default response "data" (JObj []) in
    text <- py_get data "text" (JStr "") ;;
    (if truthy text then
       n <- py_len text ;;
       print (nl ++ "[TEXT] (length: " ++ str_of_nat n ++ ")") ;;
       print (str_mul "-" 50) ;;
       n' <- py_len text ;;
       (if (max_text_length <? Z.of_nat n')%Z then
          shown <- py_truncate text max_text_length ;;
          print shown
        else print (format_value text)) ;;
       print (str_mul "-" 50)
     else ret tt) ;;
    match data with
    | JObj d =>
        (match dict_get d "metadata" with
         | Some metadata =>
             print (nl ++ "[METADATA]") ;;
             print (json_dumps L metadata)
         | None => ret tt
         end) ;;
        (match dict_get d "images" with
         | Some images =>
             n <- py_len images ;;
             print (nl ++ "[IMAGES] (" ++ str_of_nat n ++ " images)") ;;
             print_images 0 (py_iter images)
         | None => ret tt
         end) ;;
        print (nl ++ "[FULL JSON]") ;;
        print (json_dumps L data)
    | _ => raise (Err TypeError
                    ("argument of type '" ++ type_name data ++ "' is not iterable"))
    end.

(** ** The test runner *)

Definition sample_text : string := "
    Sample Document for OmniParse Testing
    ======================================

    This is a sample document created to test the OmniParse API.
    It contains multiple sections to demonstrate the parsing capabilities.

    Section 1: Introduction
    ------------------------
    OmniParse is a powerful document parsing platform that supports
    multiple file formats including PDF, PPT, DOC, and more.

    Section 2: Features
    ------------------
    - Multi-format document support
    - OCR for scanned documents
    - Table extraction
    - Image extraction and captioning
    - Semantic chunking

    Section 3: Conclusion
    --------------------
    This is the end of the sample document. Thank you for testing OmniParse!
    ".

(** Lines 284-319. *)
Definition create_sample_files (output_dir : string) : CM dict :=
  emit (EMakedirs output_dir) ;;
  (fun w => (makedirs E output_dir, w)) ;;
  let sample_files : dict := [] in
  let text_file := path_join L output_dir "sample_document.txt" in
  emit (EWrite text_file sample_text) ;;
  (fun w => (write_text E text_file sample_text, w)) ;;
  ret (dict_set sample_files "txt" (JStr text_file)).

(** [time.sleep(seconds)]. *)
Definition sleep (seconds : Z) : CM unit := emit (ESleep seconds).

(** Lines 403-405: one summary line per entry of [results]. *)
Fixpoint print_summary (items : dict) : CM unit :=
  match items with
  | [] => ret tt
  | (test_name, passed) :: rest =>
      let status := if truthy passed then "[PASS]" else "[FAIL]" in
      print ("  " ++ status ++ " " ++ test_name) ;;
      print_summary rest
  end.

(** Lines 322-408. *)
Definition run_tests (c : OmniParseAPIClient) (test_type : string) : CM dict :=
  let results : dict := [] in
  print (str_mul "=" 60) ;;
  print "OmniParse API Test Suite" ;;
  print (str_mul "=" 60) ;;
  print ("Base URL: " ++ base_url c) ;;
  print ("Test Type: " ++ test_type) ;;
  print (str_mul "=" 60) ;;
  (* Test 1: health check (always run) *)
  print (nl ++ "[TEST 1] Health Check") ;;
  result <- test_health c ;;
  let results := dict_set results "health" (get_default result "success" (JBool false)) in
  print_response c result 500 ;;
  sleep 1 ;;
  if in_tuple test_type ["all"; "health"] then ret results
  else
    (* Test 2: document parsing *)
    results <-
      (if in_tuple test_type ["all"; "document"] then
         print (nl ++ "[TEST 2] Document Parsing") ;;
         sample_files <- create_sample_files "/tmp/omniparse_test" ;;
         (if dict_in "txt" sample_files then
            print "[INFO] Creating sample document..." ;;
            print ("[INFO] Sample file created at: "
                   ++ format_value (get_default sample_files "txt" JNull)) ;;
            print "[INFO] Note: For real testing, convert this to PDF/DOC format"
          else ret tt) ;;
         let results := dict_set results "parse_document" (JBool false) in
         sleep 1 ;;
         ret results
       else ret results) ;;
    (* Test 3: image parsing *)
    results <-
      (if in_tuple test_type ["all"; "image"] then
         print (nl ++ "[TEST 3] Image Parsing") ;;
         print "[INFO] Image parsing tests require actual image files" ;;
         print "[INFO] Example command: client.parse_image('/path/to/image.jpg')" ;;
         let results := dict_set results "parse_image" (JBool false) in
         sleep 1 ;;
         ret results
       else ret results) ;;
    (* Test 4: media parsing *)
    results <-
      (if in_tuple test_type ["all"; "media"] then
         print (nl ++ "[TEST 4] Media Parsing") ;;
         print "[INFO] Media parsing tests require actual audio/video files" ;;
         print "[INFO] Example command: client.parse_media_audio('/path/to/audio.mp3')" ;;
         let results := dict_set results "parse_media" (JBool false) in
         sleep 1 ;;
         ret results
       else ret results) ;;
    (* Test 5: website parsing *)
    results <-
      (if in_tuple test_type ["all"; "website"] then
         print (nl ++ "[TEST 5] Website Parsing") ;;
         let test_url := "https://example.com" in
         print ("[INFO] Testing with URL: " ++ test_url) ;;
         result <- parse_website c test_url ;;
         let results := dict_set results "parse_website"
                          (get_default result "success" (JBool false)) in
         print_response c result 500 ;;
         ret results
       else ret results) ;;
    print (nl ++ str_mul "=" 60) ;;
    print "Test Summary" ;;
    print (str_mul "=" 60) ;;
    print_summary results ;;
    print (str_mul "=" 60) ;;
    ret results.

(** ** The command line *)

(** The namespace [parser.parse_args()] returns; [--file] and [--url] have
    no default and are [None] when absent. *)
Record Args : Type := mkArgs {
  arg_host : string;
  arg_port : Z;
  arg_test : string;
  arg_file : option string;
  arg_url : option string;
  arg_task : string;
  arg_output : string
}.

Definition unwrap (a : option string) : string :=
  match a with
  | Some s => s
  | None => ""
  end.

Definition document_exts : list string := [".pdf"; ".ppt"; ".doc"; ".pptx"; ".docx"].
Definition image_exts : list string := [".jpg"; ".jpeg"; ".png"; ".bmp"; ".gif"; ".tiff"].
Definition audio_exts : list string := [".mp3"; ".wav"; ".aac"].
Definition video_exts : list string := [".mp4"; ".mkv"; ".avi"; ".mov"].

(** [os.path.splitext(file)[1].lower()]. *)
Definition file_ext (file : string) : string :=
  str_lower L (snd (path_splitext L file)).

(** Lines 474-477 and 481-484: the result as JSON or pretty-printed. *)
Definition output_result (a : Args) (c : OmniParseAPIClient) (result : dict) : CM unit :=
  if String.eqb (arg_output a) "json" then print (json_dumps L (JObj result))
  else print_response c result 500.

(** Lines 453-491, after [parser.parse_args()]. *)
Definition main (a : Args) : CM unit :=
  let client := new_client (arg_host a) (arg_port a) in
  if given (arg_file a) then
    let file := unwrap (arg_file a) in
    let ext := file_ext file in
    result <-
      (if in_tuple ext document_exts then parse_document client file
       else if in_tuple ext image_exts then process_image client file (arg_task a)
       else if in_tuple ext audio_exts then parse_media_audio client file
       else if in_tuple ext video_exts then parse_media_video client file
       else
         print ("Unsupported file type: " ++ ext) ;;
         raise (SystemExit 1)) ;;
    output_result a client result
  else if given (arg_url a) then
    result <- parse_website client (unwrap (arg_url a)) ;;
    output_result a client result
  else
    results <- run_tests client (arg_test a) ;;
    if String.eqb (arg_output a) "json" then print (json_dumps L (JObj results))
    else ret tt.

(** ** The methods of the client, as data *)

(** One constructor per public way of calling the client. *)
Inductive client_call : Type :=
| TestHealth
| ParseDocument (file_path : string)
| ParseDocumentPdf (file_path : string)
| ParseDocumentPpt (file_path : string)
| ParseDocumentDocs (file_path : string)
| ParseFileEndpoint (endpoint file_path : string)
| ParseImage (file_path : string)
| ProcessImage (file_path task : string)
| ParseMediaAudio (file_path : string)
| ParseMediaVideo (file_path : string)
| ParseWebsite (url : string).

Definition invoke (c : OmniParseAPIClient) (m : client_call) : CM dict :=
  match m with
  | TestHealth => test_health c
  | ParseDocument p => parse_document c p
  | ParseDocumentPdf p => parse_document_pdf c p
  | ParseDocumentPpt p => parse_document_ppt c p
  | ParseDocumentDocs p => parse_document_docs c p
  | ParseFileEndpoint ep p => _parse_file_endpoint c ep p
  | ParseImage p => parse_image c p
  | ProcessImage p task => process_image c p task
  | ParseMediaAudio p => parse_media_audio c p
  | ParseMediaVideo p => parse_media_video c p
  | ParseWebsite u => parse_website c u
  end.

(** The local file a file-based method reads. *)
Definition file_of (m : client_call) : option string :=
  match m with
  | TestHealth | ParseWebsite _ => None
  | ParseDocument p | ParseDocumentPdf p | ParseDocumentPpt p
  | ParseDocumentDocs p | ParseFileEndpoint _ p | ParseImage p
  | ProcessImage p _ | ParseMediaAudio p | ParseMediaVideo p => Some p
  end.

(** The request to [endpoint] that uploads [file_path] in the form field
    [field]. *)
Definition upload_request (c : OmniParseAPIClient) (endpoint field file_path : string)
    (content_type : option string) (data : list (string * string))
    (timeout : Z) : request :=
  mkRequest POST (base_url c ++ endpoint)
    (Some (mkFilePart field (path_basename L file_path) content_type))
    data [] [] timeout.

(** The HTTP request a method sends, once it gets that far. *)
Definition request_of (c : OmniParseAPIClient) (m : client_call) : request :=
  match m with
  | TestHealth => mkRequest GET (base_url c ++ "/") None [] [] [] 5
  | ParseDocument p =>
      upload_request c "/parse_document" "file" p (Some "application/pdf") [] 300
  | ParseDocumentPdf p => upload_request c "/parse_document/pdf" "file" p None [] 300
  | ParseDocumentPpt p => upload_request c "/parse_document/ppt" "file" p None [] 300
  | ParseDocumentDocs p => upload_request c "/parse_document/docs" "file" p None [] 300
  | ParseFileEndpoint ep p => upload_request c ep "file" p None [] 300
  | ParseImage p => upload_request c "/parse_image/image" "file" p None [] 300
  | ProcessImage p task =>
      upload_request c "/parse_image/process_image" "image" p None [("task", task)] 300
  | ParseMediaAudio p => upload_request c "/parse_media/audio" "file" p None [] 600
  | ParseMediaVideo p => upload_request c "/parse_media/video" "file" p None [] 600
  | ParseWebsite u =>
      mkRequest POST (base_url c ++ "/parse_website/parse") None
        [] [("url", u)] [("accept", "application/json")] 60
  end.

(** The file of a file-based method is there and opens. *)
Definition file_ready (m : client_call) : Prop :=
  match file_of m with
  | Some p => path_exists E p = true /\ open_rb E p = Returns tt
  | None => True
  end.

End Calls.

(** ** Observations on runs *)

(** [needle in hay] on strings. *)
Fixpoint contains (needle hay : string) : bool :=
  prefix needle hay ||
  match hay with
  | EmptyString => false
  | String _ rest => contains needle rest
  end.

Definition is_http (ev : event) : bool :=
  match ev with
  | EHttp _ => true
  | _ => false
  end.

(** The HTTP requests of a trace. *)
Definition http_requests (tr : list event) : list event := filter is_http tr.

(** The exit status of the process that ran [main()] as its last
    statement. *)
Definition exit_status (o : outcome unit) : Z :=
  match o with
  | Returns _ => 0
  | Raises (SystemExit code) => code
  | Raises KeyboardInterrupt => 130
  | Raises (Err _ _) => 1
  end.

Definition is_print (ev : event) : bool :=
  match ev with
  | EPrint _ => true
  | _ => false
  end.

(** ** One library and two environments, for the examples *)

Definition is_slash (c : ascii) : bool := Ascii.eqb c "/"%char.
Definition is_dot (c : ascii) : bool := Ascii.eqb c "."%char.

(** [p.rfind(c)], [-1] when there is none. *)
Fixpoint rfind_from (i : Z) (found : Z) (is_c : ascii -> bool) (p : string) : Z :=
  match p with
  | EmptyString => found
  | String a rest => rfind_from (i + 1) (if is_c a then i else found) is_c rest
  end.
Definition rfind (is_c : ascii -> bool) (p : string) : Z := rfind_from 0 (-1) is_c p.

(** [p[i:]]. *)
Definition str_from (i : Z) (p : string) : string :=
  substring (Z.to_nat i) (String.length p - Z.to_nat i) p.

(** [posixpath.basename]. *)
Definition posix_basename (p : string) : string := str_from (rfind is_slash p + 1) p.

(** [posixpath.splitext]: the extension starts at the last dot of the last
    component, unless only dots come before it there. *)
Definition posix_splitext (p : string) : string * string :=
  let sepIndex := rfind is_slash p in
  let dotIndex := rfind is_dot p in
  if (sepIndex <? dotIndex)%Z then
    let before := substring (Z.to_nat (sepIndex + 1))
                    (Z.to_nat (dotIndex - (sepIndex + 1))) p in
    if existsb (fun a => negb (is_dot a)) (list_ascii_of_string before)
    then (substring 0 (Z.to_nat dotIndex) p, str_from dotIndex p)
    else (p, "")
  else (p, "").

(** [posixpath.join] of two components. *)
Definition posix_join (a b : string) : string :=
  if prefix "/" b then b
  else if String.eqb a "" then b
  else if is_slash (match get (String.length a - 1) a with Some x => x | None => " "%char end)
       then a ++ b
  else a ++ "/" ++ b.

(** [str.lower] on ASCII letters. *)
Definition ascii_lower_char (a : ascii) : ascii :=
  let n := nat_of_ascii a in
  if (65 <=? n)%nat && (n <=? 90)%nat then ascii_of_nat (n + 32) else a.
Fixpoint ascii_lower (s : string) : string :=
  match s with
  | EmptyString => ""
  | String a rest => String (ascii_lower_char a) (ascii_lower rest)
  end.

(** A one-line rendering of a value, without escapes. *)
Fixpoint json_line (v : json) : string :=
  match v with
  | JNull => "null"
  | JBool true => "true"
  | JBool false => "false"
  | JInt z => str_of_Z z
  | JFloat _ literal => literal
  | JStr s => "'" ++ s ++ "'"
  | JArr items =>
      "[" ++ (fix go (l : list json) : string :=
                match l with
                | [] => ""
                | [x] => json_line x
                | x :: rest => json_line x ++ ", " ++ go rest
                end) items ++ "]"
  | JObj fields =>
      "{" ++ (fix go (l : list (string * json)) : string :=
                match l with
                | [] => ""
                | [(k, x)] => "'" ++ k ++ "': " ++ json_line x
                | (k, x) :: rest => "'" ++ k ++ "': " ++ json_line x ++ ", " ++ go rest
                end) fields ++ "}"
  end.

(** The POSIX path functions, ASCII lowering and the one-line rendering. *)
Definition posix_lib : PyLib :=
  mkPyLib posix_basename posix_splitext posix_join ascii_lower json_line json_line.

(** No server listens and no file exists. *)
Definition env_offline : Env :=
  mkEnv (fun _ => false)
        (fun _ => Raises (Err OSError "No such file or directory"))
        (fun _ => Returns tt)
        (fun _ _ => Returns tt)
        (fun _ => Raises (Err ConnectionError "Connection refused")).

(** Every file exists and the server answers every request with status
    [status] and the JSON body [body]. *)
Definition env_online (status : Z) (body : json) : Env :=
  mkEnv (fun _ => true)
        (fun _ => Returns tt)
        (fun _ => Returns tt)
        (fun _ _ => Returns tt)
        (fun _ => Returns (mkResponse status (json_line body) (Returns body))).

Definition start : world unit := mkWorld tt [].

(** The namespace of a command line without arguments. *)
Definition default_args : Args :=
  mkArgs "localhost" 8000 "all" None None "Caption" "summary".

Definition with_file (a : Args) (f : string) : Args :=
  mkArgs (arg_host a) (arg_port a) (arg_test a) (Some f) (arg_url a)
         (arg_task a) (arg_output a).

Definition with_url (a : Args) (u : string) : Args :=
  mkArgs (arg_host a) (arg_port a) (arg_test a) (arg_file a) (Some u)
         (arg_task a) (arg_output a).

(** ** Notions for the further properties *)

(** Every path exists but none can be opened. *)
Definition env_unreadable : Env :=
  mkEnv (fun _ => true)
        (fun _ => Raises (Err OSError "Permission denied"))
        (fun _ => Returns tt)
        (fun _ _ => Returns tt)
        (fun _ => Raises (Err ConnectionError "Connection refused")).

(** The server answers every request with [status] and a body that is not
    JSON; decoding it raises [e]. *)
Definition env_not_json (status : Z) (body : string) (e : exn) : Env :=
  mkEnv (fun _ => true)
        (fun _ => Returns tt)
        (fun _ => Returns tt)
        (fun _ _ => Returns tt)
        (fun _ => Returns (mkResponse status body (Raises e))).

(** Every request is interrupted from the keyboard. *)
Definition env_interrupted : Env :=
  mkEnv (fun _ => true)
        (fun _ => Returns tt)
        (fun _ => Returns tt)
        (fun _ _ => Returns tt)
        (fun _ => Raises KeyboardInterrupt).

(** A computation that only appends events of the class [P] to the
    trace. *)
Definition emits_only {A : Type} (P : event -> bool) (c : CM A) : Prop :=
  forall w, exists new,
    trace (snd (c w)) = (trace w ++ new)%list /\ forallb P new = true.

(** What the text section shows of [s]. *)
Definition shown_text (s : string) (n : Z) : string :=
  if (n <? Z.of_nat (String.length s))%Z then str_prefix s n ++ "..." else s.

(** The events of a trace that reach outside the process: everything but
    printing and sleeping. *)
Definition is_quiet (ev : event) : bool :=
  match ev with
  | EPrint _ | ESleep _ => true
  | _ => false
  end.

Definition outside_effects (tr : list event) : list event :=
  filter (fun ev => negb (is_quiet ev)) tr.

(** Whether a call that returned reports success: a response arrived and
    its body was decoded (or, for the health check, was empty). *)
Definition answered (E : Env) (req : request) (allow_empty : bool) : bool :=
  match http E req with
  | Raises _ => false
  | Returns r =>
      if allow_empty && String.eqb (text r) "" then true
      else match json_body r with
           | Returns _ => true
           | Raises _ => false
           end
  end.

Definition health_request (c : OmniParseAPIClient) : request :=
  mkRequest GET (base_url c ++ "/") None [] [] [] 5.

Definition website_request (c : OmniParseAPIClient) (url : string) : request :=
  mkRequest POST (base_url c ++ "/parse_website/parse") None
    [] [("url", url)] [("accept", "application/json")] 60.

(** What [run_tests] does outside the process after the health check, when
    nothing fails on the way. *)
Definition planned_effects (L : PyLib) (c : OmniParseAPIClient)
    (test_type : string) : list event :=
  if String.eqb test_type "document" then
    [EMakedirs "/tmp/omniparse_test";
     EWrite (path_join L "/tmp/omniparse_test" "sample_document.txt") sample_text]
  else if String.eqb test_type "website" then
    [EHttp (website_request c "https://example.com")]
  else [].

(** The entries [run_tests] adds after ["health"]. *)
Definition planned_entries (E : Env) (c : OmniParseAPIClient)
    (test_type : string) : dict :=
  if String.eqb test_type "document" then [("parse_document", JBool false)]
  else if String.eqb test_type "image" then [("parse_image", JBool false)]
  else if String.eqb test_type "media" then [("parse_media", JBool false)]
  else if String.eqb test_type "website" then
    [("parse_website",
      JBool (answered E (website_request c "https://example.com") false))]
  else [].

End Client.

(* ================================================================= *)
(** * Properties of the model loader *)

Import Loader.

Ltac unfold_loader :=
  unfold load_omnimodel, load_media_and_web, load_documents_step, load_vision,
    load_media_step, load_web_step, when, bind, try_except, extcall, modify,
    print, emit, ret, raise in *;
  cbn [fst snd heap trace] in *.

(** Case analysis on the answer of every library call the goal waits for. *)
Ltac case_oracles :=
  repeat match goal with
         | |- context [match ?o with Returns _ => _ | Raises _ => _ end] =>
             let Ho := fresh "Ho" in
             destruct o eqn:Ho; cbn [fst snd heap trace] in *
         | |- context [if isinstance_Exception ?e then _ else _] =>
             let He := fresh "He" in
             destruct (isinstance_Exception e) eqn:He; cbn [fst snd heap trace] in *
         end.

(** The media and web steps write neither the document field nor the
    vision fields. *)
Lemma load_media_and_web_frame (E : Env) (load_media load_web : bool)
    (w : world SharedState) :
  let s' := heap (snd (load_media_and_web E load_media load_web w)) in
  model_list s' = model_list (heap w) /\
  vision_model s' = vision_model (heap w) /\
  vision_processor s' = vision_processor (heap w).
Proof.
  destruct load_media, load_web; unfold_loader; case_oracles; auto.
Qed.

(** With no flag set, a call leaves the holder as it found it, however the
    banner call ends. *)
Lemma load_nothing_frame (E : Env) (w : world SharedState) :
  heap (snd (load_omnimodel E false false false w)) = heap w.
Proof.
  unfold_loader; case_oracles; reflexivity.
Qed.

(** C5. Calling [load_omnimodel] with the three flags false on the initial,
    all-[None] holder leaves [model_list], [vision_model],
    [vision_processor], [whisper_model] and [crawler] all [None]. *)
Theorem load_nothing_leaves_holder_unset (E : Env) (tr : list event) :
  let s' := heap (snd (load_omnimodel E false false false (mkWorld shared_state tr))) in
  model_list s' = None /\ vision_model s' = None /\ vision_processor s' = None /\
  whisper_model s' = None /\ crawler s' = None.
Proof.
  cbv zeta. rewrite load_nothing_frame. cbn. repeat split.
Qed.

(** C6. A call with only [load_documents] true that returns, on the initial
    holder, has stored the document models in [model_list]; the vision
    fields hold the loaded model and processor, and are [None] only when
    the vision load raised; [whisper_model] and [crawler] are still
    [None]. *)
Theorem load_documents_only_populates (E : Env) (tr : list event) :
  fst (load_omnimodel E true false false (mkWorld shared_state tr)) = Returns tt ->
  let s' := heap (snd (load_omnimodel E true false false (mkWorld shared_state tr))) in
  (exists ml, load_all_models E = Returns ml /\ model_list s' = Some ml) /\
  whisper_model s' = None /\ crawler s' = None /\
  match vision_load E with
  | Returns (m, p) => vision_model s' = Some m /\ vision_processor s' = Some p
  | Raises _ => vision_model s' = None /\ vision_processor s' = None
  end.
Proof.
  unfold vision_load. unfold_loader.
  destruct (print_omniparse_text_art E); cbn; [| discriminate].
  destruct (load_all_models E) as [ml |]; cbn; [| discriminate].
  destruct (AutoModelForCausalLM_from_pretrained E _ true) as [m | e]; cbn.
  - destruct (module_to E m _) as [m' | e]; cbn.
    + destruct (AutoProcessor_from_pretrained E _ true) as [p | e]; cbn.
      * intros _. repeat split; eauto.
      * destruct (isinstance_Exception e); cbn; [| discriminate].
        intros _. repeat split; eauto.
    + destruct (isinstance_Exception e); cbn; [| discriminate].
      intros _. repeat split; eauto.
  - destruct (isinstance_Exception e); cbn; [| discriminate].
    intros _. repeat split; eauto.
Qed.

Lemma load_documents_only_populates_witness :
  let s' := heap (snd (load_omnimodel env_ok true false false (mkWorld shared_state []))) in
  (exists ml, load_all_models env_ok = Returns ml /\ model_list s' = Some ml) /\
  whisper_model s' = None /\ crawler s' = None /\
  vision_model s' = Some (PyObj 2) /\ vision_processor s' = Some (PyObj 3).
Proof.
  exact (load_documents_only_populates env_ok [] eq_refl).
Defined.

(** What the media and web steps answer, from the libraries' answers
    alone. *)
Lemma load_media_and_web_outcome (E : Env) (load_media load_web : bool)
    (w : world SharedState) :
  (load_media = false \/ exists wm, whisper_load_model E "small" = Returns wm) ->
  (load_web = false \/ exists c, WebCrawler E true = Returns c) ->
  fst (load_media_and_web E load_media load_web w) = Returns tt.
Proof.
  intros [-> | [wm Hwm]] [-> | [c Hc]]; unfold_loader;
    try destruct load_media; try destruct load_web;
    try rewrite Hwm; try rewrite Hc; reflexivity.
Qed.

(** The media and web steps reach their library calls. *)
Lemma load_media_and_web_calls (E : Env) (load_media load_web : bool)
    (w : world SharedState) :
  exists new,
    trace (snd (load_media_and_web E load_media load_web w)) = (trace w ++ new)%list /\
    (load_media = true -> In (ECall "whisper.load_model") new) /\
    (load_web = true ->
     (load_media = false \/ exists wm, whisper_load_model E "small" = Returns wm) ->
     In (ECall "WebCrawler") new).
Proof.
  destruct load_media, load_web; unfold_loader; case_oracles;
    repeat rewrite <- app_assoc; cbn [app];
    first [ exists []; split; [symmetry; apply app_nil_r |]
          | eexists; split; [reflexivity |] ];
    split; intros; try discriminate; cbn; auto 10;
    match goal with
    | H : _ \/ _ |- _ => destruct H as [H | [? H]]; congruence
    end.
Qed.

(** When the vision load raises an exception derived from [Exception], the
    call goes on as its media and web steps go from a holder whose vision
    fields are [None]. *)
Lemma vision_failure_run (E : Env) (load_media load_web : bool)
    (s0 : SharedState) (tr0 : list event) (ml : pyobj) (e : exn) :
  print_omniparse_text_art E = Returns tt ->
  load_all_models E = Returns ml ->
  vision_load E = Raises e ->
  isinstance_Exception e = true ->
  exists tr1,
    load_omnimodel E true load_media load_web (mkWorld s0 tr0)
    = load_media_and_web E load_media load_web
        (mkWorld (set_vision_processor None
                    (set_vision_model None (set_model_list (Some ml) s0)))
                 (tr0 ++ tr1)).
Proof.
  intros Hart Hml Hvis He. unfold vision_load in Hvis.
  unfold load_omnimodel, load_documents_step, load_vision, when at 1.
  unfold bind, try_except, extcall, modify, print, emit, ret.
  cbn [fst snd heap trace]. rewrite Hart, Hml. cbn [fst snd heap trace].
  destruct (AutoModelForCausalLM_from_pretrained E _ true) as [m | e1];
    cbn [fst snd heap trace].
  - destruct (module_to E m _) as [m' | e2]; cbn [fst snd heap trace].
    + destruct (AutoProcessor_from_pretrained E _ true) as [p | e3];
        cbn [fst snd heap trace]; [discriminate |].
      injection Hvis as ->. rewrite He.
      repeat rewrite <- app_assoc. cbn [app]. eexists. reflexivity.
    + injection Hvis as ->. rewrite He.
      repeat rewrite <- app_assoc. cbn [app]. eexists. reflexivity.
  - injection Hvis as ->. rewrite He.
    repeat rewrite <- app_assoc. cbn [app]. eexists. reflexivity.
Qed.

(** C1 (amended). When the document models load and the vision load (the
    model, its move to the device, or the processor) raises an exception
    derived from [Exception], [load_omnimodel] goes on exactly as its media
    and web steps go from a holder whose two vision fields are [None]: the
    exception is not the outcome of the call, both vision fields are [None]
    when the call ends, the whisper load is called when [load_media] is
    set, and the crawler is built when [load_web] is set and the whisper
    load did not fail. *)
Theorem vision_failure_is_contained (E : Env) (load_media load_web : bool)
    (s0 : SharedState) (tr0 : list event) (ml : pyobj) (e : exn) :
  print_omniparse_text_art E = Returns tt ->
  load_all_models E = Returns ml ->
  vision_load E = Raises e ->
  isinstance_Exception e = true ->
  let run := load_omnimodel E true load_media load_web (mkWorld s0 tr0) in
  (exists tr1,
      run = load_media_and_web E load_media load_web
              (mkWorld (set_vision_processor None
                          (set_vision_model None (set_model_list (Some ml) s0)))
                       (tr0 ++ tr1))) /\
  ((load_media = false \/ exists wm, whisper_load_model E "small" = Returns wm) ->
   (load_web = false \/ exists c, WebCrawler E true = Returns c) ->
   fst run = Returns tt) /\
  vision_model (heap (snd run)) = None /\
  vision_processor (heap (snd run)) = None /\
  (exists new,
      trace (snd run) = (tr0 ++ new)%list /\
      (load_media = true -> In (ECall "whisper.load_model") new) /\
      (load_web = true ->
       (load_media = false \/ exists wm, whisper_load_model E "small" = Returns wm) ->
       In (ECall "WebCrawler") new)).
Proof.
  intros Hart Hml Hvis He run.
  destruct (vision_failure_run E load_media load_web s0 tr0 ml e Hart Hml Hvis He)
    as [tr1 Hrun].
  fold run in Hrun.
  split; [eauto |]. rewrite Hrun.
  split; [apply load_media_and_web_outcome |].
  pose proof (load_media_and_web_frame E load_media load_web
                (mkWorld (set_vision_processor None
                            (set_vision_model None (set_model_list (Some ml) s0)))
                         (tr0 ++ tr1))) as (_ & Hm & Hp).
  split; [exact Hm |]. split; [exact Hp |].
  destruct (load_media_and_web_calls E load_media load_web
              (mkWorld (set_vision_processor None
                          (set_vision_model None (set_model_list (Some ml) s0)))
                       (tr0 ++ tr1))) as (new & Htr & Hw & Hc).
  exists (tr1 ++ new)%list. cbn [trace] in Htr. rewrite Htr, app_assoc.
  split; [reflexivity |].
  split; intros; apply in_or_app; right; auto.
Qed.

Lemma vision_failure_is_contained_witness :
  let run := load_omnimodel (env_vision (Raises flash_attn_missing) (Returns (PyObj 3)))
               true true true (mkWorld shared_state []) in
  fst run = Returns tt /\
  vision_model (heap (snd run)) = None /\
  vision_processor (heap (snd run)) = None.
Proof.
  pose proof (vision_failure_is_contained
                (env_vision (Raises flash_attn_missing) (Returns (PyObj 3)))
                true true shared_state [] (PyObj 1) flash_attn_missing
                eq_refl eq_refl eq_refl eq_refl) as (_ & Hret & Hm & Hp & _).
  split; [| split; assumption].
  apply Hret; right; eexists; reflexivity.
Defined.

(** C1, as stated, fails: a [KeyboardInterrupt] raised while the vision
    model loads is not caught by [except Exception]; it is the outcome of
    [load_omnimodel], and neither the whisper load nor the crawler is
    reached. *)
Lemma keyboard_interrupt_escapes_vision_load :
  let E := env_vision (Raises KeyboardInterrupt) (Returns (PyObj 3)) in
  let run := load_omnimodel E true true true (mkWorld shared_state []) in
  vision_load E = Raises KeyboardInterrupt /\
  fst run = Raises KeyboardInterrupt /\
  ~ In (ECall "whisper.load_model") (trace (snd run)) /\
  ~ In (ECall "WebCrawler") (trace (snd run)).
Proof.
  cbv zeta. split; [reflexivity |]. split; [reflexivity |].
  split; vm_compute; intros H;
    repeat (destruct H as [H | H]; [discriminate H |]); exact H.
Qed.

(** When the documents block runs and lets no exception through, the two
    vision fields end up both set or both [None]. *)
Lemma load_documents_step_pairs (E : Env) (device : string)
    (w : world SharedState) :
  survivable (fst (load_documents_step E device w)) = true ->
  vision_paired (heap (snd (load_documents_step E device w))) \/
  (heap (snd (load_documents_step E device w)) = heap w).
Proof.
  unfold vision_paired. unfold_loader.
  destruct (load_all_models E) as [ml | e0]; cbn; [| now right].
  destruct (AutoModelForCausalLM_from_pretrained E _ true) as [m | e]; cbn.
  - destruct (module_to E m device) as [m' | e]; cbn.
    + destruct (AutoProcessor_from_pretrained E _ true) as [p | e]; cbn.
      * intros _. left. split; intros _; discriminate.
      * destruct (isinstance_Exception e) eqn:He; cbn.
        -- intros _. left. split; intros H; exact H.
        -- rewrite He. discriminate.
    + destruct (isinstance_Exception e) eqn:He; cbn.
      * intros _. left. split; intros H; exact H.
      * rewrite He. discriminate.
  - destruct (isinstance_Exception e) eqn:He; cbn.
    + intros _. left. split; intros H; exact H.
    + rewrite He. discriminate.
Qed.

(** [load_omnimodel], step by step. *)
Lemma load_omnimodel_steps (E : Env) (load_documents load_media load_web : bool)
    (w : world SharedState) :
  load_omnimodel E load_documents load_media load_web w =
  let w1 := mkWorld (heap w) (trace w ++ [ECall "print_omniparse_text_art"]) in
  match print_omniparse_text_art E with
  | Raises e => (Raises e, w1)
  | Returns _ =>
      match when load_documents
              (load_documents_step E (if cuda_is_available E then "cuda" else "cpu")) w1
      with
      | (Returns _, w2) => load_media_and_web E load_media load_web w2
      | (Raises e, w2) => (Raises e, w2)
      end
  end.
Proof.
  unfold load_omnimodel, bind, extcall. cbn [fst snd].
  destruct (print_omniparse_text_art E); reflexivity.
Qed.

(** A call that returns, or fails with an exception derived from
    [Exception], keeps the vision fields paired. *)
Lemma load_omnimodel_keeps_pairing (E : Env)
    (load_documents load_media load_web : bool) (w : world SharedState) :
  vision_paired (heap w) ->
  survivable (fst (load_omnimodel E load_documents load_media load_web w)) = true ->
  vision_paired (heap (snd (load_omnimodel E load_documents load_media load_web w))).
Proof.
  intros Hw. rewrite load_omnimodel_steps. cbv zeta.
  destruct (print_omniparse_text_art E) as [[] | e0]; [| intros _; exact Hw].
  set (w1 := mkWorld (heap w) (trace w ++ [ECall "print_omniparse_text_art"])).
  set (device := if cuda_is_available E then "cuda" else "cpu").
  assert (Hw1 : vision_paired (heap w1)) by exact Hw.
  clearbody w1. clear Hw.
  destruct load_documents; unfold when.
  - pose proof (load_documents_step_pairs E device w1) as Hdoc.
    destruct (load_documents_step E device w1) as [[[] | e] w2] eqn:Hstep;
      cbn [fst snd] in *.
    + intros _.
      assert (Hw2 : vision_paired (heap w2)).
      { destruct (Hdoc eq_refl) as [H | H]; [exact H | rewrite H; exact Hw1]. }
      pose proof (load_media_and_web_frame E load_media load_web w2)
        as (_ & Hm & Hp).
      unfold vision_paired in *. cbv zeta in Hm, Hp.
      rewrite Hm, Hp. exact Hw2.
    + intros He.
      destruct (Hdoc He) as [H | H]; [exact H | rewrite H; exact Hw1].
  - unfold ret. intros _.
    pose proof (load_media_and_web_frame E load_media load_web w1)
      as (_ & Hm & Hp).
    unfold vision_paired in *. cbv zeta in Hm, Hp.
    rewrite Hm, Hp. exact Hw1.
Qed.

(** C9 (amended). In every holder reached from the initial one by calls to
    [load_omnimodel] that return or fail with an exception derived from
    [Exception], [vision_model] is set exactly when [vision_processor] is;
    and when the model has loaded and loading the processor raises an
    exception derived from [Exception], both fields are [None] after the
    call, whatever they held before. *)
Theorem vision_fields_paired :
  (forall s : SharedState, reachable s -> vision_paired s) /\
  (forall (E : Env) (load_media load_web : bool) (s : SharedState)
          (tr : list event) (ml m m' : pyobj) (e : exn),
      print_omniparse_text_art E = Returns tt ->
      load_all_models E = Returns ml ->
      AutoModelForCausalLM_from_pretrained E "microsoft/Florence-2-base" true
        = Returns m ->
      module_to E m (if cuda_is_available E then "cuda" else "cpu") = Returns m' ->
      AutoProcessor_from_pretrained E "microsoft/Florence-2-base" true = Raises e ->
      isinstance_Exception e = true ->
      let s' := heap (snd (load_omnimodel E true load_media load_web (mkWorld s tr))) in
      vision_model s' = None /\ vision_processor s' = None).
Proof.
  split.
  - induction 1 as [| E d lm lw s tr Hs IH Hsurv].
    + split; intros H; exact H.
    + apply load_omnimodel_keeps_pairing; assumption.
  - intros E lm lw s tr ml m m' e Hart Hml Hm Hto Hp He.
    assert (Hvis : vision_load E = Raises e).
    { unfold vision_load. rewrite Hm, Hto, Hp. reflexivity. }
    destruct (vision_failure_run E lm lw s tr ml e Hart Hml Hvis He) as [tr1 Hrun].
    cbv zeta. rewrite Hrun.
    pose proof (load_media_and_web_frame E lm lw
                  (mkWorld (set_vision_processor None
                              (set_vision_model None (set_model_list (Some ml) s)))
                           (tr ++ tr1))) as (_ & Hvm & Hvp).
    split; assumption.
Qed.

Lemma vision_fields_paired_witness :
  let E := env_vision (Returns (PyObj 2)) (Raises flash_attn_missing) in
  let s' := heap (snd (load_omnimodel E true true true (mkWorld shared_state []))) in
  vision_paired s' /\ vision_model s' = None /\ vision_processor s' = None.
Proof.
  split.
  - apply (proj1 vision_fields_paired).
    apply reachable_call; [apply reachable_init | reflexivity].
  - exact (proj2 vision_fields_paired
             (env_vision (Returns (PyObj 2)) (Raises flash_attn_missing))
             true true shared_state [] (PyObj 1) (PyObj 2) (PyObj 2)
             flash_attn_missing eq_refl eq_refl eq_refl eq_refl eq_refl eq_refl).
Defined.

(** C9, as stated, fails: when the model has loaded and the processor load
    is interrupted by a [KeyboardInterrupt], the handler does not run and
    the call leaves [vision_model] set next to a [None]
    [vision_processor]. *)
Lemma interrupted_processor_load_unpairs :
  let E := env_vision (Returns (PyObj 2)) (Raises KeyboardInterrupt) in
  let run := load_omnimodel E true true true (mkWorld shared_state []) in
  fst run = Raises KeyboardInterrupt /\
  vision_model (heap (snd run)) = Some (PyObj 2) /\
  vision_processor (heap (snd run)) = None /\
  ~ vision_paired (heap (snd run)).
Proof.
  cbv zeta. repeat split; try reflexivity.
  unfold vision_paired. vm_compute. intros [H _].
  apply H; [discriminate | reflexivity].
Qed.

(* ================================================================= *)
(** * Properties of the API test client *)

Import Client.

Ltac unfold_client :=
  unfold invoke, test_health, parse_document, parse_document_pdf,
    parse_document_ppt, parse_document_docs, _parse_file_endpoint, parse_image,
    process_image, parse_media_audio, parse_media_video, parse_website,
    with_open_rb, requests_get, requests_post, response_json, request_of,
    upload_request, file_ready, file_of,
    bind, try_except, emit, ret in *;
  cbn [fst snd heap trace negb] in *.

(** Use the facts of [file_ready], when the method reads a file. *)
Ltac use_ready H :=
  lazymatch type of H with
  | _ /\ _ => let Hex := fresh "Hex" in
              let Hopen := fresh "Hopen" in
              destruct H as [Hex Hopen]; rewrite Hex, Hopen
  | _ => idtac
  end.

(** A method whose file is ready sends exactly the request [request_of]
    names. *)
Lemma invoke_sends_request (L : PyLib) (E : Env) (c : OmniParseAPIClient)
    (m : client_call) (w : world unit) :
  file_ready E m ->
  http_requests (trace (snd (invoke L E c m w)))
  = (http_requests (trace w) ++ [EHttp (request_of L c m)])%list.
Proof.
  intros Hready. unfold http_requests.
  destruct m; unfold_client; use_ready Hready; cbn [fst snd heap trace negb];
    repeat match goal with
           | |- context [match http E ?r with Returns _ => _ | Raises _ => _ end] =>
               destruct (http E r) as [resp | e]; cbn [fst snd heap trace]
           | |- context [negb (String.eqb ?t "")] =>
               destruct (String.eqb t ""); cbn [fst snd heap trace negb]
           | |- context [match json_body ?r with Returns _ => _ | Raises _ => _ end] =>
               destruct (json_body r); cbn [fst snd heap trace]
           | |- context [if isinstance_RequestException ?e then _ else _] =>
               destruct (isinstance_RequestException e); cbn [fst snd heap trace]
           end;
    repeat rewrite filter_app; cbn; repeat rewrite app_nil_r; reflexivity.
Qed.

(** C3. Every file-based method ([parse_document], [parse_document_pdf],
    [parse_document_ppt], [parse_document_docs], [_parse_file_endpoint],
    [parse_image], [process_image], [parse_media_audio],
    [parse_media_video]), called on a path that does not exist, returns a
    dictionary with [success] false and an [error] message that contains
    "File not found", and leaves the world as it was: no HTTP request is
    made. *)
Theorem missing_file_is_reported_without_request (L : PyLib) (E : Env)
    (c : OmniParseAPIClient) (m : client_call) (p : string) (w : world unit) :
  file_of m = Some p ->
  path_exists E p = false ->
  exists msg,
    invoke L E c m w = (Returns [("success", JBool false); ("error", JStr msg)], w) /\
    contains "File not found" msg = true /\
    http_requests (trace (snd (invoke L E c m w))) = http_requests (trace w).
Proof.
  intros Hfile Hmissing.
  exists ("File not found: " ++ p).
  assert (Hrun : invoke L E c m w
                 = (Returns [("success", JBool false);
                             ("error", JStr ("File not found: " ++ p))], w)).
  { destruct m; cbn in Hfile; try discriminate;
      injection Hfile as ->; unfold_client; rewrite Hmissing; reflexivity. }
  rewrite Hrun. repeat split.
Qed.

Lemma missing_file_is_reported_without_request_witness :
  exists msg,
    invoke posix_lib env_offline (new_client "localhost" 8000)
      (ProcessImage "photo.png" "Caption") start
    = (Returns [("success", JBool false); ("error", JStr msg)], start) /\
    contains "File not found" msg = true /\
    http_requests (trace (snd (invoke posix_lib env_offline
                                 (new_client "localhost" 8000)
                                 (ProcessImage "photo.png" "Caption") start)))
    = http_requests (trace start).
Proof.
  exact (missing_file_is_reported_without_request posix_lib env_offline
           (new_client "localhost" 8000) (ProcessImage "photo.png" "Caption")
           "photo.png" start eq_refl eq_refl).
Defined.

(** The errors of the network layer are instances of
    [RequestException]. *)
Lemma network_errors_are_request_exceptions (msg : string) :
  isinstance_RequestException (Err ConnectionError msg) = true /\
  isinstance_RequestException (Err Timeout msg) = true.
Proof. split; reflexivity. Qed.

(** C4. For every client method ([test_health], the file-based methods on a
    file that is there and opens, [parse_website]), when the HTTP request
    raises an exception of the network layer (an instance of
    [requests.exceptions.RequestException], as a refused connection or a
    timeout is), the method returns
    [{"success": False, "error": str(e)}]: the exception does not reach the
    caller. *)
Theorem network_failure_is_reported (L : PyLib) (E : Env)
    (c : OmniParseAPIClient) (m : client_call) (w : world unit) (e : exn) :
  file_ready E m ->
  http E (request_of L c m) = Raises e ->
  isinstance_RequestException e = true ->
  fst (invoke L E c m w)
  = Returns [("success", JBool false); ("error", JStr (str_exn e))].
Proof.
  intros Hready Hhttp He.
  destruct m; unfold_client;
    use_ready Hready;
    cbn [fst snd heap trace negb]; rewrite Hhttp;
    cbn [fst snd heap trace]; rewrite He; reflexivity.
Qed.

Lemma network_failure_is_reported_witness :
  fst (invoke posix_lib env_offline (new_client "localhost" 8000)
         (ParseWebsite "https://example.com") start)
  = Returns [("success", JBool false); ("error", JStr "Connection refused")].
Proof.
  exact (network_failure_is_reported posix_lib env_offline
           (new_client "localhost" 8000) (ParseWebsite "https://example.com")
           start (Err ConnectionError "Connection refused") I eq_refl eq_refl).
Defined.

(** C8. For every client method, once the HTTP exchange completes (the
    request returns a response, and its body decodes as JSON or, for
    [test_health], is empty), the returned dictionary has [success] true
    and carries the response's status code, whatever that code is, 4xx
    and 5xx included. *)
Theorem http_status_does_not_decide_success (L : PyLib) (E : Env)
    (c : OmniParseAPIClient) (m : client_call) (w : world unit)
    (r : response) (v : json) :
  file_ready E m ->
  http E (request_of L c m) = Returns r ->
  json_body r = Returns v \/ (m = TestHealth /\ text r = "") ->
  exists data,
    fst (invoke L E c m w)
    = Returns [("success", JBool true); ("status_code", JInt (status_code r));
               ("data", data)].
Proof.
  intros Hready Hhttp Hbody.
  destruct m; unfold_client;
    use_ready Hready;
    cbn [fst snd heap trace negb]; rewrite Hhttp; cbn [fst snd heap trace];
    try (destruct Hbody as [Hv | [Hm _]]; [| discriminate Hm];
         rewrite Hv; eexists; reflexivity).
  destruct Hbody as [Hv | [_ Ht]].
  - destruct (String.eqb (text r) ""); cbn [negb fst snd]; [| rewrite Hv];
      eexists; reflexivity.
  - rewrite Ht. cbn. eexists; reflexivity.
Qed.

Lemma http_status_does_not_decide_success_witness :
  exists data,
    fst (invoke posix_lib (env_online 500 (JObj [("detail", JStr "Internal Server Error")]))
           (new_client "localhost" 8000) (ParseDocument "report.pdf") start)
    = Returns [("success", JBool true); ("status_code", JInt 500); ("data", data)].
Proof.
  exact (http_status_does_not_decide_success posix_lib
           (env_online 500 (JObj [("detail", JStr "Internal Server Error")]))
           (new_client "localhost" 8000) (ParseDocument "report.pdf") start
           (mkResponse 500 (json_line (JObj [("detail", JStr "Internal Server Error")]))
              (Returns (JObj [("detail", JStr "Internal Server Error")])))
           (JObj [("detail", JStr "Internal Server Error")])
           (conj eq_refl eq_refl) eq_refl (or_introl eq_refl)).
Defined.

(** [run_tests] up to the early return of line 348, with the health check
    and the printing of its result left abstract. *)
Lemma run_tests_all_or_health (L : PyLib) (E : Env) (c : OmniParseAPIClient)
    (test_type : string) (w : world unit) :
  in_tuple test_type ["all"; "health"] = true ->
  match fst (run_tests L E c test_type w) with
  | Returns results => map fst results = ["health"]
  | Raises _ => True
  end.
Proof.
  intros Hin. unfold run_tests. rewrite Hin.
  unfold bind, print, sleep, emit, ret. cbn [fst snd heap trace].
  match goal with
  | |- context [test_health E c ?w0] =>
      destruct (test_health E c w0) as [[result | e] w1]
  end; cbn [fst snd]; [| exact I].
  match goal with
  | |- context [print_response L c result 500 ?w0] =>
      destruct (print_response L c result 500 w0) as [[[] | e] w2]
  end; cbn [fst snd]; [reflexivity | exact I].
Qed.

(** C2 (the code at ["all"]). [run_tests(client, "all")] returns right
    after the health check: whenever it returns, the only key of the
    dictionary is ["health"]; against a server that is down it returns
    [{"health": False}], with no entry for the document, image, media or
    website category, while each single category, asked for by name, does
    get its entry. *)
Theorem run_tests_all_stops_after_health :
  (forall (L : PyLib) (E : Env) (c : OmniParseAPIClient) (w : world unit),
      match fst (run_tests L E c "all" w) with
      | Returns results => map fst results = ["health"]
      | Raises _ => True
      end) /\
  (let results := fst (run_tests posix_lib env_offline
                         (new_client "localhost" 8000) "all" start) in
   results = Returns [("health", JBool false)]) /\
  (let results := fst (run_tests posix_lib (env_online 200 (JObj []))
                         (new_client "localhost" 8000) "all" start) in
   results = Returns [("health", JBool true)]) /\
  map (fun category =>
         fst (run_tests posix_lib env_offline (new_client "localhost" 8000)
                category start))
      ["document"; "image"; "media"; "website"]
  = [Returns [("health", JBool false); ("parse_document", JBool false)];
     Returns [("health", JBool false); ("parse_image", JBool false)];
     Returns [("health", JBool false); ("parse_media", JBool false)];
     Returns [("health", JBool false); ("parse_website", JBool false)]].
Proof.
  split; [| split; [| split]]; try reflexivity.
  intros L E c w. apply run_tests_all_or_health. reflexivity.
Qed.

(** An optional argument counts as given when it is there and not empty. *)
Lemma given_Some (s : string) : given (Some s) = true <-> s <> "".
Proof.
  cbn. destruct (String.eqb_spec s ""); cbn; split; congruence.
Qed.

(** Membership in one extension list excludes the lists tested before
    it. *)
Lemma ext_lists_disjoint (ext : string) :
  (in_tuple ext image_exts = true -> in_tuple ext document_exts = false) /\
  (in_tuple ext audio_exts = true ->
   in_tuple ext document_exts = false /\ in_tuple ext image_exts = false) /\
  (in_tuple ext video_exts = true ->
   in_tuple ext document_exts = false /\ in_tuple ext image_exts = false /\
   in_tuple ext audio_exts = false).
Proof.
  unfold in_tuple.
  split; [| split]; intros Hin; repeat split;
    match goal with
    | Hin : existsb _ _ = true |- _ =>
        apply existsb_exists in Hin;
        destruct Hin as (x & Hx & Heq); apply String.eqb_eq in Heq; subst x;
        cbn in Hx; repeat (destruct Hx as [Hx | Hx]; [subst ext; reflexivity |]);
        destruct Hx
    end.
Qed.

(** C7 (amended). [main] dispatches as follows, an argument counting as
    given when it is present and not the empty string.  With [--file]
    given, by the lower-cased extension of the file: [parse_document] for
    .pdf/.ppt/.doc/.pptx/.docx, [process_image] with the task for
    .jpg/.jpeg/.png/.bmp/.gif/.tiff, [parse_media_audio] for
    .mp3/.wav/.aac, [parse_media_video] for .mp4/.mkv/.avi/.mov, the
    result being printed afterwards.  With [--file] not given and [--url]
    given, [parse_website] on that URL.  With neither given,
    [run_tests] on the [--test] argument. *)
Theorem main_dispatch (L : PyLib) (E : Env) (a : Args) (w : world unit) :
  let client := new_client (arg_host a) (arg_port a) in
  (forall f, arg_file a = Some f -> f <> "" ->
     (in_tuple (file_ext L f) document_exts = true ->
      main L E a w
      = (result <- parse_document L E client f ;;
         output_result L a client result) w) /\
     (in_tuple (file_ext L f) image_exts = true ->
      main L E a w
      = (result <- process_image L E client f (arg_task a) ;;
         output_result L a client result) w) /\
     (in_tuple (file_ext L f) audio_exts = true ->
      main L E a w
      = (result <- parse_media_audio L E client f ;;
         output_result L a client result) w) /\
     (in_tuple (file_ext L f) video_exts = true ->
      main L E a w
      = (result <- parse_media_video L E client f ;;
         output_result L a client result) w)) /\
  (forall u, given (arg_file a) = false -> arg_url a = Some u -> u <> "" ->
     main L E a w
     = (result <- parse_website E client u ;;
        output_result L a client result) w) /\
  (given (arg_file a) = false -> given (arg_url a) = false ->
   main L E a w
   = (results <- run_tests L E client (arg_test a) ;;
      if String.eqb (arg_output a) "json" then print (json_dumps L (JObj results))
      else ret tt) w).
Proof.
  cbv zeta. split; [| split].
  - intros f Hf Hne. apply given_Some in Hne.
    destruct (ext_lists_disjoint (file_ext L f)) as (Himg & Haud & Hvid).
    unfold main. rewrite Hf, Hne. cbn [unwrap].
    repeat split; intros Hext.
    + rewrite Hext. reflexivity.
    + rewrite (Himg Hext), Hext. reflexivity.
    + destruct (Haud Hext) as [-> ->]. rewrite Hext. reflexivity.
    + destruct (Hvid Hext) as (-> & -> & ->). rewrite Hext. reflexivity.
  - intros u Hfile Hu Hne. apply given_Some in Hne.
    unfold main. rewrite Hfile, Hu, Hne. reflexivity.
  - intros Hfile Hurl. unfold main. rewrite Hfile, Hurl. reflexivity.
Qed.

Lemma main_dispatch_witness :
  let a := with_file default_args "slides/report.PDF" in
  let client := new_client "localhost" 8000 in
  main posix_lib env_offline a start
  = (result <- parse_document posix_lib env_offline client "slides/report.PDF" ;;
     output_result posix_lib a client result) start.
Proof.
  exact (proj1 (proj1 (main_dispatch posix_lib env_offline
                         (with_file default_args "slides/report.PDF") start)
                  "slides/report.PDF" eq_refl
                  (fun H : "slides/report.PDF" = "" => eq_ind "slides/report.PDF"
                     (fun s => match s with EmptyString => False | _ => True end)
                     I "" H))
           eq_refl).
Defined.

(** C7, as stated, fails: with [--file] absent and [--url ""] given, the
    empty URL counts as no URL; [main] runs the test suite and sends no
    request to the website endpoint. *)
Lemma empty_url_runs_the_suite :
  let a := with_url default_args "" in
  let client := new_client "localhost" 8000 in
  arg_file a = None /\ arg_url a = Some "" /\
  main posix_lib env_offline a start
  <> (result <- parse_website env_offline client "" ;;
      output_result posix_lib a client result) start /\
  main posix_lib env_offline a start
  = (results <- run_tests posix_lib env_offline client "all" ;; ret tt) start /\
  http_requests (trace (snd (main posix_lib env_offline a start)))
  = [EHttp (mkRequest GET "http://localhost:8000/" None [] [] [] 5)].
Proof.
  cbv zeta. split; [reflexivity |]. split; [reflexivity |].
  split; [vm_compute; discriminate |]. split; reflexivity.
Qed.

(** C10 (amended). When [--file] is given and not empty and its lower-cased
    extension is in none of the document, image, audio and video lists,
    [main] prints "Unsupported file type: " followed by the extension and
    exits with status 1; it does nothing else, so no HTTP request is
    made. *)
Theorem unsupported_file_type_exits (L : PyLib) (E : Env) (a : Args)
    (w : world unit) (f : string) :
  arg_file a = Some f ->
  f <> "" ->
  in_tuple (file_ext L f)
    (document_exts ++ image_exts ++ audio_exts ++ video_exts) = false ->
  main L E a w
  = (Raises (SystemExit 1),
     mkWorld (heap w)
       (trace w ++ [EPrint ("Unsupported file type: " ++ file_ext L f)])) /\
  exit_status (fst (main L E a w)) = 1%Z /\
  http_requests (trace (snd (main L E a w))) = http_requests (trace w).
Proof.
  intros Hf Hne Hext. apply given_Some in Hne.
  unfold in_tuple in Hext.
  repeat (rewrite existsb_app in Hext; apply orb_false_elim in Hext;
          destruct Hext as [? Hext]).
  assert (Hrun : main L E a w
                 = (Raises (SystemExit 1),
                    mkWorld (heap w)
                      (trace w ++ [EPrint ("Unsupported file type: " ++ file_ext L f)]))).
  { unfold main. rewrite Hf, Hne. cbn [unwrap]. unfold in_tuple.
    repeat match goal with
           | H : existsb _ _ = false |- _ => rewrite H; clear H
           end.
    reflexivity. }
  rewrite Hrun. cbn [fst snd trace exit_status].
  repeat split.
  unfold http_requests. rewrite filter_app. cbn. apply app_nil_r.
Qed.

Lemma unsupported_file_type_exits_witness :
  main posix_lib env_offline (with_file default_args "notes.txt") start
  = (Raises (SystemExit 1),
     mkWorld tt [EPrint "Unsupported file type: .txt"]) /\
  exit_status (fst (main posix_lib env_offline
                      (with_file default_args "notes.txt") start)) = 1%Z /\
  http_requests (trace (snd (main posix_lib env_offline
                               (with_file default_args "notes.txt") start)))
  = http_requests (trace start).
Proof.
  exact (unsupported_file_type_exits posix_lib env_offline
           (with_file default_args "notes.txt") start "notes.txt" eq_refl
           (fun H : "notes.txt" = "" => eq_ind "notes.txt"
              (fun s => match s with EmptyString => False | _ => True end)
              I "" H)
           eq_refl).
Defined.

(** C10, as stated, fails: [--file ""] names a file whose extension, the
    empty string, is in none of the four lists, yet the empty path counts
    as no file: [main] prints no "Unsupported file type" message, runs the
    test suite, sends the health request and ends with status 0. *)
Lemma empty_file_runs_the_suite :
  let a := with_file default_args "" in
  let client := new_client "localhost" 8000 in
  arg_file a = Some "" /\
  in_tuple (file_ext posix_lib "")
    (document_exts ++ image_exts ++ audio_exts ++ video_exts) = false /\
  fst (main posix_lib env_offline a start) = Returns tt /\
  exit_status (fst (main posix_lib env_offline a start)) = 0%Z /\
  ~ In (EPrint "Unsupported file type: ")
       (trace (snd (main posix_lib env_offline a start))) /\
  http_requests (trace (snd (main posix_lib env_offline a start)))
  = [EHttp (mkRequest GET "http://localhost:8000/" None [] [] [] 5)].
Proof.
  cbv zeta. repeat split.
  vm_compute. intros H.
  repeat (destruct H as [H | H]; [discriminate H |]). exact H.
Qed.

(* ================================================================= *)
(** * Further properties of the model loader *)

(** X1. A call writes only the fields its flags ask for: without
    [load_documents] the document and vision fields keep their values,
    without [load_media] the whisper field does, without [load_web] the
    crawler field does, whatever the libraries answer. *)
Theorem unrequested_fields_untouched (E : Loader.Env)
    (load_documents load_media load_web : bool) (w : world SharedState) :
  let s' := heap (snd (load_omnimodel E load_documents load_media load_web w)) in
  (load_documents = false ->
   model_list s' = model_list (heap w) /\
   vision_model s' = vision_model (heap w) /\
   vision_processor s' = vision_processor (heap w)) /\
  (load_media = false -> whisper_model s' = whisper_model (heap w)) /\
  (load_web = false -> crawler s' = crawler (heap w)).
Proof.
  cbv zeta. split; [| split]; intros ->.
  - destruct load_media, load_web; unfold_loader; case_oracles; auto.
  - destruct load_documents, load_web; unfold_loader; case_oracles; auto.
  - destruct load_documents, load_media; unfold_loader; case_oracles; auto.
Qed.

Lemma unrequested_fields_untouched_witness :
  let w := mkWorld (mkSharedState None None None (Some (PyObj 9)) None) [] in
  let s' := heap (snd (load_omnimodel env_ok true false true w)) in
  whisper_model s' = Some (PyObj 9).
Proof.
  exact (proj1 (proj2 (unrequested_fields_untouched env_ok true false true
                         (mkWorld (mkSharedState None None None (Some (PyObj 9)) None) [])))
           eq_refl).
Defined.

(** X2. A failure of [load_all_models] is not caught, whatever its class:
    the call raises it right after the OCR log line, the holder is
    unchanged, and no vision, whisper or crawler call is made. *)
Theorem document_load_failure_is_fatal (E : Loader.Env)
    (load_media load_web : bool) (w : world SharedState) (e : exn) :
  print_omniparse_text_art E = Returns tt ->
  load_all_models E = Raises e ->
  load_omnimodel E true load_media load_web w
  = (Raises e,
     mkWorld (heap w)
       (trace w ++ [ECall "print_omniparse_text_art";
                    EPrint "[LOG] ✅ Loading OCR Model";
                    ECall "load_all_models"])).
Proof.
  intros Hart Hml. unfold_loader. rewrite Hart, Hml. cbn [fst snd heap trace].
  repeat rewrite <- app_assoc. reflexivity.
Qed.

Lemma document_load_failure_is_fatal_witness :
  let E := Loader.mkEnv (Returns tt) false
             (Raises (Err OSError "model file missing"))
             (fun _ _ => Returns (PyObj 2)) (fun m _ => Returns m)
             (fun _ _ => Returns (PyObj 3)) (fun _ => Returns (PyObj 4))
             (fun _ => Returns (PyObj 5)) in
  fst (load_omnimodel E true true true (mkWorld shared_state []))
  = Raises (Err OSError "model file missing") /\
  heap (snd (load_omnimodel E true true true (mkWorld shared_state [])))
  = shared_state.
Proof.
  cbv zeta.
  rewrite (document_load_failure_is_fatal
             (Loader.mkEnv (Returns tt) false
                (Raises (Err OSError "model file missing"))
                (fun _ _ => Returns (PyObj 2)) (fun m _ => Returns m)
                (fun _ _ => Returns (PyObj 3)) (fun _ => Returns (PyObj 4))
                (fun _ => Returns (PyObj 5)))
             true true (mkWorld shared_state [])
             (Err OSError "model file missing") eq_refl eq_refl).
  split; reflexivity.
Defined.

(** X3. A failure of [whisper.load_model] is not caught either: when the
    steps before it pass, the call raises it, [whisper_model] and [crawler]
    keep their values, the crawler is never built even with [load_web]
    set, and the document models loaded just before stay in the holder. *)
Theorem speech_load_failure_is_fatal (E : Loader.Env)
    (load_documents load_web : bool) (w : world SharedState) (e : exn) :
  print_omniparse_text_art E = Returns tt ->
  documents_step_passes E load_documents ->
  whisper_load_model E "small" = Raises e ->
  let run := load_omnimodel E load_documents true load_web w in
  fst run = Raises e /\
  whisper_model (heap (snd run)) = whisper_model (heap w) /\
  crawler (heap (snd run)) = crawler (heap w) /\
  (load_documents = true -> model_list (heap (snd run)) = match load_all_models E with
                                                          | Returns ml => Some ml
                                                          | Raises _ => None
                                                          end) /\
  exists new,
    trace (snd run) = (trace w ++ new)%list /\
    ~ In "WebCrawler" (library_calls new) /\
    last (library_calls new) "" = "whisper.load_model".
Proof.
  intros Hart Hdoc Hwh. cbv zeta.
  destruct Hdoc as [-> | [[ml Hml] Hvis]].
  - unfold_loader. rewrite Hart, Hwh. cbn [fst snd heap trace].
    repeat split; try discriminate.
    repeat rewrite <- app_assoc. cbn [app].
    eexists. split; [reflexivity |]. cbn. split; [| reflexivity].
    intros H. repeat (destruct H as [H | H]; [discriminate H |]). exact H.
  - unfold vision_load in Hvis.
    destruct load_documents; unfold_loader; rewrite Hart; try rewrite Hml;
      cbn [fst snd heap trace].
    + destruct (AutoModelForCausalLM_from_pretrained E _ true) as [m | e1];
        cbn [fst snd heap trace].
      * destruct (module_to E m _) as [m' | e2]; cbn [fst snd heap trace].
        -- destruct (AutoProcessor_from_pretrained E _ true) as [p | e3];
             cbn [fst snd heap trace]; try rewrite Hvis; rewrite Hwh;
             cbn [fst snd heap trace]; (repeat split);
             repeat rewrite <- app_assoc; cbn [app];
             (eexists; split; [reflexivity |]; cbn; split; [| reflexivity];
              intros H; repeat (destruct H as [H | H]; [discriminate H |]); exact H).
        -- rewrite Hvis, Hwh. cbn [fst snd heap trace]. repeat split.
           repeat rewrite <- app_assoc; cbn [app].
           eexists; split; [reflexivity |]; cbn; split; [| reflexivity].
           intros H; repeat (destruct H as [H | H]; [discriminate H |]); exact H.
      * rewrite Hvis, Hwh. cbn [fst snd heap trace]. repeat split.
        repeat rewrite <- app_assoc; cbn [app].
        eexists; split; [reflexivity |]; cbn; split; [| reflexivity].
        intros H; repeat (destruct H as [H | H]; [discriminate H |]); exact H.
    + rewrite Hwh. cbn [fst snd heap trace]. repeat split; try discriminate.
      repeat rewrite <- app_assoc; cbn [app].
      eexists; split; [reflexivity |]; cbn; split; [| reflexivity].
      intros H; repeat (destruct H as [H | H]; [discriminate H |]); exact H.
Qed.

Lemma speech_load_failure_is_fatal_witness :
  let run := load_omnimodel env_whisper_fails true true true
               (mkWorld shared_state []) in
  fst run = Raises (Err RuntimeError "checksum mismatch") /\
  crawler (heap (snd run)) = None /\
  model_list (heap (snd run)) = Some (PyObj 1).
Proof.
  pose proof (speech_load_failure_is_fatal env_whisper_fails true true
                (mkWorld shared_state []) (Err RuntimeError "checksum mismatch")
                eq_refl
                (or_intror (conj (ex_intro _ (PyObj 1) eq_refl) I))
                eq_refl) as (Hout & _ & Hcr & Hml & _).
  split; [exact Hout |]. split; [exact Hcr | exact (Hml eq_refl)].
Defined.

(** X4. When every library call succeeds, a call with the three flags set
    fills the five fields with what the libraries returned (the vision
    model being the result of [.to(device)]), whatever the holder held
    before; [get_shared_state] then returns that holder; and the libraries
    are called in the order banner, OCR, vision model, device move,
    processor, whisper, crawler. *)
Theorem full_load_populates_every_field (E : Loader.Env) (w : world SharedState)
    (ml m m' p wm cr : pyobj) :
  print_omniparse_text_art E = Returns tt ->
  load_all_models E = Returns ml ->
  AutoModelForCausalLM_from_pretrained E "microsoft/Florence-2-base" true = Returns m ->
  module_to E m (if cuda_is_available E then "cuda" else "cpu") = Returns m' ->
  AutoProcessor_from_pretrained E "microsoft/Florence-2-base" true = Returns p ->
  whisper_load_model E "small" = Returns wm ->
  WebCrawler E true = Returns cr ->
  fst ((load_omnimodel E true true true ;; get_shared_state) w)
  = Returns (mkSharedState (Some ml) (Some m') (Some p) (Some wm) (Some cr)) /\
  library_calls (trace (snd (load_omnimodel E true true true w)))
  = (library_calls (trace w)
     ++ ["print_omniparse_text_art"; "load_all_models";
         "AutoModelForCausalLM.from_pretrained"; "to";
         "AutoProcessor.from_pretrained"; "whisper.load_model"; "WebCrawler"])%list.
Proof.
  intros Hart Hml Hm Hto Hp Hwm Hcr.
  unfold get_shared_state. unfold_loader.
  rewrite Hart, Hml. cbn [fst snd heap trace].
  rewrite Hm. cbn [fst snd heap trace]. rewrite Hto. cbn [fst snd heap trace].
  rewrite Hp. cbn [fst snd heap trace]. rewrite Hwm. cbn [fst snd heap trace].
  rewrite Hcr. cbn [fst snd heap trace].
  split; [reflexivity |].
  unfold library_calls. repeat rewrite flat_map_app. cbn.
  repeat rewrite <- app_assoc. reflexivity.
Qed.

Lemma full_load_populates_every_field_witness :
  fst ((load_omnimodel env_ok true true true ;; get_shared_state)
         (mkWorld shared_state []))
  = Returns (mkSharedState (Some (PyObj 1)) (Some (PyObj 2)) (Some (PyObj 3))
               (Some (PyObj 4)) (Some (PyObj 5))).
Proof.
  exact (proj1 (full_load_populates_every_field env_ok (mkWorld shared_state [])
                  (PyObj 1) (PyObj 2) (PyObj 2) (PyObj 3) (PyObj 4) (PyObj 5)
                  eq_refl eq_refl eq_refl eq_refl eq_refl eq_refl eq_refl)).
Defined.

(** X5. Loading is idempotent: with the same library answers and the same
    flags, a second call leaves the holder exactly as the first call left
    it, whether the calls return or fail. *)
Theorem reload_is_idempotent (E : Loader.Env)
    (load_documents load_media load_web : bool) (w : world SharedState)
    (tr' : list event) :
  let s1 := heap (snd (load_omnimodel E load_documents load_media load_web w)) in
  heap (snd (load_omnimodel E load_documents load_media load_web (mkWorld s1 tr')))
  = s1.
Proof.
  cbv zeta.
  remember (heap (snd (load_omnimodel E load_documents load_media load_web w)))
    as s1 eqn:Hs1.
  destruct w as [[ml vm vp wm cr] tr]. destruct s1 as [ml1 vm1 vp1 wm1 cr1].
  destruct load_documents, load_media, load_web; unfold_loader;
    unfold set_model_list, set_vision_model, set_vision_processor,
      set_whisper_model, set_crawler in *;
    cbn [fst snd heap trace model_list vision_model vision_processor
         whisper_model crawler] in *;
    repeat match goal with
           | H : context [match ?o with Returns _ => _ | Raises _ => _ end] |- _ =>
               destruct o;
               cbn [fst snd heap trace model_list vision_model
                    vision_processor whisper_model crawler] in *
           | H : context [if isinstance_Exception ?e then _ else _] |- _ =>
               destruct (isinstance_Exception e);
               cbn [fst snd heap trace model_list vision_model
                    vision_processor whisper_model crawler] in *
           end;
    injection Hs1 as -> -> -> -> ->; reflexivity.
Qed.

(** X6. When the vision load raises an exception derived from [Exception],
    the loader prints the warning carrying [str(e)] and the hint to install
    flash-attn, and does not print the success line; when the vision load
    succeeds it prints the success line. *)
Theorem vision_failure_is_logged (E : Loader.Env) (load_media load_web : bool)
    (s0 : SharedState) (ml : pyobj) :
  print_omniparse_text_art E = Returns tt ->
  load_all_models E = Returns ml ->
  let lines := printed_lines
                 (trace (snd (load_omnimodel E true load_media load_web
                                (mkWorld s0 [])))) in
  match vision_load E with
  | Raises e =>
      isinstance_Exception e = true ->
      In ("[LOG] ⚠️  Failed to load Vision Model: " ++ str_exn e) lines /\
      In "[LOG] 📌 Vision model features will be disabled. Install flash-attn to enable vision model support." lines /\
      ~ In "[LOG] ✅ Vision Model loaded successfully" lines
  | Returns _ => In "[LOG] ✅ Vision Model loaded successfully" lines
  end.
Proof.
  intros Hart Hml. cbv zeta. unfold vision_load.
  destruct load_media, load_web; unfold_loader; rewrite Hart, Hml;
    cbn [fst snd heap trace];
    destruct (AutoModelForCausalLM_from_pretrained E _ true) as [m | e1];
    cbn [fst snd heap trace];
    try (destruct (module_to E m _) as [m' | e2]; cbn [fst snd heap trace]);
    try (destruct (AutoProcessor_from_pretrained E _ true) as [p | e3];
         cbn [fst snd heap trace]);
    try (intros He; rewrite He; cbn [fst snd heap trace]);
    case_oracles; unfold printed_lines; cbn;
    try (repeat split; auto 10;
         intros H; repeat (destruct H as [H | H]; [discriminate H |]); exact H);
    auto 10.
Qed.

Lemma vision_failure_is_logged_witness :
  let E := env_vision (Raises flash_attn_missing) (Returns (PyObj 3)) in
  let lines := printed_lines
                 (trace (snd (load_omnimodel E true false false
                                (mkWorld shared_state [])))) in
  In "[LOG] ⚠️  Failed to load Vision Model: flash_attn is not installed" lines /\
  In "[LOG] 📌 Vision model features will be disabled. Install flash-attn to enable vision model support." lines /\
  ~ In "[LOG] ✅ Vision Model loaded successfully" lines.
Proof.
  exact (vision_failure_is_logged
           (env_vision (Raises flash_attn_missing) (Returns (PyObj 3)))
           false false shared_state (PyObj 1) eq_refl eq_refl eq_refl).
Defined.

(* ================================================================= *)
(** * Further properties of the API test client *)

(** Case analysis on every answer a client method waits for. *)
Ltac case_client :=
  repeat match goal with
         | |- context [path_exists ?E ?p] =>
             let Hex := fresh "Hex" in
             destruct (path_exists E p) eqn:Hex; cbn [fst snd heap trace negb]
         | |- context [match open_rb ?E ?p with Returns _ => _ | Raises _ => _ end] =>
             let Hop := fresh "Hop" in
             destruct (open_rb E p) eqn:Hop; cbn [fst snd heap trace]
         | |- context [match http ?E ?r with Returns _ => _ | Raises _ => _ end] =>
             let Hh := fresh "Hh" in
             destruct (http E r) eqn:Hh; cbn [fst snd heap trace]
         | |- context [negb (String.eqb ?t "")] =>
             let Ht := fresh "Ht" in
             destruct (String.eqb t "") eqn:Ht; cbn [fst snd heap trace negb]
         | |- context [match json_body ?r with Returns _ => _ | Raises _ => _ end] =>
             let Hj := fresh "Hj" in
             destruct (json_body r) eqn:Hj; cbn [fst snd heap trace]
         | |- context [if isinstance_RequestException ?e then _ else _] =>
             let He := fresh "He" in
             destruct (isinstance_RequestException e) eqn:He;
             cbn [fst snd heap trace]
         end.

(** The two shapes of a returned result. *)
Lemma result_shape_is_uniform_aux (L : PyLib) (E : Env) (c : OmniParseAPIClient)
    (m : client_call) (w : world unit) (d : dict) :
  fst (invoke L E c m w) = Returns d ->
  (exists code data,
      d = [("success", JBool true); ("status_code", JInt code); ("data", data)]) \/
  (exists msg, d = [("success", JBool false); ("error", JStr msg)]).
Proof.
  destruct m; unfold_client; case_client; intros H;
    try discriminate H; injection H as <-; eauto.
Qed.

(** X7. Whatever the filesystem and the network answer, a client method
    that returns yields one of two shapes:
    [{"success": True, "status_code": <int>, "data": ...}] or
    [{"success": False, "error": <str>}]. *)
Theorem result_shape_is_uniform (L : PyLib) (E : Env) (c : OmniParseAPIClient)
    (m : client_call) (w : world unit) (d : dict) :
  fst (invoke L E c m w) = Returns d ->
  (exists code data,
      d = [("success", JBool true); ("status_code", JInt code); ("data", data)]) \/
  (exists msg, d = [("success", JBool false); ("error", JStr msg)]).
Proof.
  destruct m; unfold_client; case_client; intros H;
    try discriminate H; injection H as <-; eauto.
Qed.

Lemma result_shape_is_uniform_witness :
  (exists code data,
      [("success", JBool false); ("error", JStr "Connection refused")]
      = [("success", JBool true); ("status_code", JInt code); ("data", data)]) \/
  (exists msg,
      [("success", JBool false); ("error", JStr "Connection refused")]
      = [("success", JBool false); ("error", JStr msg)]).
Proof.
  exact (result_shape_is_uniform posix_lib env_offline
           (new_client "localhost" 8000) TestHealth start
           [("success", JBool false); ("error", JStr "Connection refused")]
           eq_refl).
Defined.

(** X8. A client method does nothing but this, whatever the answers: for a
    file-based method, nothing at all when the file is missing, one attempt
    to open it when the open fails, otherwise open, one request, close (the
    file is closed however the request ends); for [test_health] and
    [parse_website], one request.  No request is ever repeated. *)
Theorem method_effects (L : PyLib) (E : Env) (c : OmniParseAPIClient)
    (m : client_call) (w : world unit) :
  trace (snd (invoke L E c m w))
  = (trace w ++
     match file_of m with
     | None => [EHttp (request_of L c m)]
     | Some p =>
         if negb (path_exists E p) then []
         else match open_rb E p with
              | Raises _ => [EOpen p]
              | Returns _ => [EOpen p; EHttp (request_of L c m); EClose p]
              end
     end)%list.
Proof.
  destruct m; unfold_client; case_client;
    repeat rewrite <- app_assoc; cbn [app]; try rewrite app_nil_r; reflexivity.
Qed.

(** X9. An error of [open] on a file that exists (a directory, a file
    without read permission) is not recovered unless it is a
    [RequestException]: the method raises it to the caller, having sent no
    request. *)
Theorem open_failure_reaches_the_caller (L : PyLib) (E : Env)
    (c : OmniParseAPIClient) (m : client_call) (p : string) (w : world unit)
    (e : exn) :
  file_of m = Some p ->
  path_exists E p = true ->
  open_rb E p = Raises e ->
  isinstance_RequestException e = false ->
  invoke L E c m w = (Raises e, mkWorld (heap w) (trace w ++ [EOpen p])).
Proof.
  intros Hfile Hex Hopen He.
  destruct m; cbn in Hfile; try discriminate; injection Hfile as ->;
    unfold_client; rewrite Hex, Hopen; cbn [fst snd heap trace negb];
    rewrite He; reflexivity.
Qed.

Lemma open_failure_reaches_the_caller_witness :
  invoke posix_lib env_unreadable (new_client "localhost" 8000)
    (ParseImage "scan.png") start
  = (Raises (Err OSError "Permission denied"), mkWorld tt [EOpen "scan.png"]).
Proof.
  exact (open_failure_reaches_the_caller posix_lib env_unreadable
           (new_client "localhost" 8000) (ParseImage "scan.png") "scan.png"
           start (Err OSError "Permission denied") eq_refl eq_refl eq_refl eq_refl).
Defined.

(** X10. When a response arrives but [response.json()] raises (the body is
    not JSON), the method reports [{"success": False, "error": str(e)}] if
    the error is a [RequestException] (as the JSON error of recent
    [requests] is) and lets it reach the caller otherwise; for
    [test_health] this needs a non-empty body. *)
Theorem undecodable_body (L : PyLib) (E : Env) (c : OmniParseAPIClient)
    (m : client_call) (w : world unit) (r : response) (e : exn) :
  file_ready E m ->
  http E (request_of L c m) = Returns r ->
  json_body r = Raises e ->
  (m = TestHealth -> text r <> "") ->
  fst (invoke L E c m w)
  = if isinstance_RequestException e
    then Returns [("success", JBool false); ("error", JStr (str_exn e))]
    else Raises e.
Proof.
  intros Hready Hhttp Hbody Htext.
  destruct m; unfold_client; use_ready Hready; cbn [fst snd heap trace negb];
    rewrite Hhttp; cbn [fst snd heap trace];
    try (rewrite Hbody; cbn [fst snd heap trace];
         destruct (isinstance_RequestException e); reflexivity).
  destruct (String.eqb_spec (text r) "") as [Heq | _];
    [destruct (Htext eq_refl Heq) |].
  cbn [negb]. rewrite Hbody. cbn [fst snd heap trace].
  destruct (isinstance_RequestException e); reflexivity.
Qed.

Lemma undecodable_body_witness :
  fst (invoke posix_lib
         (env_not_json 502 "<html>Bad Gateway</html>"
            (Err InvalidJSONError "Expecting value: line 1 column 1 (char 0)"))
         (new_client "localhost" 8000) (ParseWebsite "https://example.com") start)
  = Returns [("success", JBool false);
             ("error", JStr "Expecting value: line 1 column 1 (char 0)")].
Proof.
  exact (undecodable_body posix_lib
           (env_not_json 502 "<html>Bad Gateway</html>"
              (Err InvalidJSONError "Expecting value: line 1 column 1 (char 0)"))
           (new_client "localhost" 8000) (ParseWebsite "https://example.com")
           start
           (mkResponse 502 "<html>Bad Gateway</html>"
              (Raises (Err InvalidJSONError "Expecting value: line 1 column 1 (char 0)")))
           (Err InvalidJSONError "Expecting value: line 1 column 1 (char 0)")
           I eq_refl eq_refl
           (fun H : ParseWebsite "https://example.com" = TestHealth =>
              eq_ind (ParseWebsite "https://example.com")
                (fun x => match x with TestHealth => text _ <> "" | _ => True end)
                I TestHealth H)).
Defined.

(** X11. [test_health] does not decode an empty body: any response with an
    empty text, whatever its status code and whatever decoding it would
    do, gives success with the stock payload
    [{"message": "Server is running"}]. *)
Theorem health_check_accepts_empty_body (E : Env) (c : OmniParseAPIClient)
    (w : world unit) (r : response) :
  http E (mkRequest GET (base_url c ++ "/") None [] [] [] 5) = Returns r ->
  text r = "" ->
  fst (test_health E c w)
  = Returns [("success", JBool true); ("status_code", JInt (status_code r));
             ("data", JObj [("message", JStr "Server is running")])].
Proof.
  intros Hhttp Htext. unfold_client. rewrite Hhttp. cbn [fst snd heap trace].
  rewrite Htext. reflexivity.
Qed.

Lemma health_check_accepts_empty_body_witness :
  fst (test_health (env_not_json 503 "" (Err ValueError "Expecting value"))
         (new_client "localhost" 8000) start)
  = Returns [("success", JBool true); ("status_code", JInt 503);
             ("data", JObj [("message", JStr "Server is running")])].
Proof.
  exact (health_check_accepts_empty_body
           (env_not_json 503 "" (Err ValueError "Expecting value"))
           (new_client "localhost" 8000) start
           (mkResponse 503 "" (Raises (Err ValueError "Expecting value")))
           eq_refl eq_refl).
Defined.

(** X12. Only [RequestException] is recovered: when the HTTP call raises
    anything else (a [KeyboardInterrupt], a [ValueError]), the method
    raises it to the caller instead of returning a result. *)
Theorem other_exceptions_reach_the_caller (L : PyLib) (E : Env)
    (c : OmniParseAPIClient) (m : client_call) (w : world unit) (e : exn) :
  file_ready E m ->
  http E (request_of L c m) = Raises e ->
  isinstance_RequestException e = false ->
  fst (invoke L E c m w) = Raises e.
Proof.
  intros Hready Hhttp He.
  destruct m; unfold_client; use_ready Hready; cbn [fst snd heap trace negb];
    rewrite Hhttp; cbn [fst snd heap trace]; rewrite He; reflexivity.
Qed.

Lemma other_exceptions_reach_the_caller_witness :
  fst (invoke posix_lib env_interrupted (new_client "localhost" 8000)
         (ParseMediaVideo "talk.mp4") start)
  = Raises KeyboardInterrupt.
Proof.
  exact (other_exceptions_reach_the_caller posix_lib env_interrupted
           (new_client "localhost" 8000) (ParseMediaVideo "talk.mp4") start
           KeyboardInterrupt (conj eq_refl eq_refl) eq_refl eq_refl).
Defined.

(** [print_response] treats every response without a true [success]
    (false, or the key missing) as an error: it prints the single line
    "[ERROR] " followed by the [error] field, or by "Unknown error" when
    that key is missing, and returns without raising. *)
Lemma print_response_error_line (L : PyLib) (c : OmniParseAPIClient)
    (response : dict) (max_text_length : Z) (w : world unit) :
  truthy (get_default response "success" JNull) = false ->
  print_response L c response max_text_length w
  = (Returns tt,
     mkWorld (heap w)
       (trace w ++
        [EPrint ("[ERROR] " ++
                 match dict_get response "error" with
                 | Some v => format_value L v
                 | None => "Unknown error"
                 end)])).
Proof.
  intros Hfalse. unfold print_response, get_default in *. rewrite Hfalse.
  cbn [negb]. destruct (dict_get response "error"); reflexivity.
Qed.

(** X13. [print_response] needs a JSON object as payload: on a successful
    response whose [data] is a list, a string, a number, a boolean or
    null it prints the status line and then raises [AttributeError]. *)
Theorem print_response_rejects_non_object (L : PyLib) (c : OmniParseAPIClient)
    (response : dict) (max_text_length : Z) (w : world unit) (data : json) :
  truthy (get_default response "success" JNull) = true ->
  dict_get response "data" = Some data ->
  (forall fields, data <> JObj fields) ->
  print_response L c response max_text_length w
  = (Raises (Err AttributeError
               ("'" ++ type_name data ++ "' object has no attribute 'get'")),
     mkWorld (heap w)
       (trace w ++
        [EPrint ("[INFO] Status: " ++
                 format_value L (get_default response "status_code" (JStr "N/A")))])).
Proof.
  intros Htrue Hdata Hnot. unfold print_response.
  rewrite Htrue. cbn [negb]. unfold get_default at 2. rewrite Hdata.
  destruct data; try reflexivity.
  destruct (Hnot fields eq_refl).
Qed.

Lemma print_response_rejects_non_object_witness :
  fst (print_response posix_lib (new_client "localhost" 8000)
         [("success", JBool true); ("status_code", JInt 200);
          ("data", JArr [JStr "a"; JStr "b"])] 500 start)
  = Raises (Err AttributeError "'list' object has no attribute 'get'").
Proof.
  exact (f_equal fst
           (print_response_rejects_non_object posix_lib
              (new_client "localhost" 8000)
              [("success", JBool true); ("status_code", JInt 200);
               ("data", JArr [JStr "a"; JStr "b"])] 500 start
              (JArr [JStr "a"; JStr "b"]) eq_refl eq_refl
              (fun fields (H : JArr [JStr "a"; JStr "b"] = JObj fields) =>
                 eq_ind (JArr [JStr "a"; JStr "b"])
                   (fun v => match v with JArr _ => True | _ => False end)
                   I (JObj fields) H))).
Defined.

(** X14. Every failure a client method reports is printed by
    [print_response] as the single line "[ERROR] " followed by the
    message of the result, without raising. *)
Theorem failed_call_prints_error_line (L : PyLib) (E : Env)
    (c : OmniParseAPIClient) (m : client_call) (w w' : world unit) (d : dict)
    (max_text_length : Z) :
  fst (invoke L E c m w) = Returns d ->
  dict_get d "success" = Some (JBool false) ->
  exists msg,
    dict_get d "error" = Some (JStr msg) /\
    print_response L c d max_text_length w'
    = (Returns tt, mkWorld (heap w') (trace w' ++ [EPrint ("[ERROR] " ++ msg)])).
Proof.
  intros Hcall Hfail.
  destruct (result_shape_is_uniform_aux L E c m w d Hcall)
    as [(code & data & ->) | (msg & ->)]; [discriminate Hfail |].
  exists msg. split; reflexivity.
Qed.

Lemma failed_call_prints_error_line_witness :
  exists msg,
    dict_get [("success", JBool false); ("error", JStr "File not found: a.pdf")]
      "error" = Some (JStr msg) /\
    print_response posix_lib (new_client "localhost" 8000)
      [("success", JBool false); ("error", JStr "File not found: a.pdf")] 500 start
    = (Returns tt, mkWorld (heap start) (trace start ++ [EPrint ("[ERROR] " ++ msg)])).
Proof.
  exact (failed_call_prints_error_line posix_lib env_offline
           (new_client "localhost" 8000) (ParseDocument "a.pdf") start start
           [("success", JBool false); ("error", JStr "File not found: a.pdf")]
           500 eq_refl eq_refl).
Defined.

Lemma emits_only_ret {A : Type} (P : event -> bool) (a : A) :
  emits_only P (ret a).
Proof.
  intros w. exists []. cbn. rewrite app_nil_r. auto.
Qed.

Lemma emits_only_raise {A : Type} (P : event -> bool) (e : exn) :
  emits_only P (raise e : CM A).
Proof.
  intros w. exists []. cbn. rewrite app_nil_r. auto.
Qed.

Lemma emits_only_emit (P : event -> bool) (ev : event) :
  P ev = true -> emits_only P (emit ev).
Proof.
  intros HP w. exists [ev]. cbn. rewrite HP. auto.
Qed.

Lemma emits_only_bind {A B : Type} (P : event -> bool) (c : CM A)
    (k : A -> CM B) :
  emits_only P c -> (forall a, emits_only P (k a)) -> emits_only P (bind c k).
Proof.
  intros Hc Hk w. unfold bind.
  destruct (Hc w) as (new1 & H1 & HP1).
  destruct (c w) as [[a | e] w1]; cbn [fst snd] in *.
  - destruct (Hk a w1) as (new2 & H2 & HP2).
    exists (new1 ++ new2)%list. rewrite H2, H1, app_assoc, forallb_app, HP1, HP2.
    auto.
  - exists new1. auto.
Qed.

(** Prove [emits_only is_print] for code built from [print], the Python
    helpers and the monad. *)
Ltac prints_only :=
  repeat first
    [ apply emits_only_ret
    | apply emits_only_raise
    | apply emits_only_emit; reflexivity
    | apply emits_only_bind; [| intros ?]
    | assumption
    | match goal with
      | |- emits_only _ (print _) => unfold print
      | |- emits_only _ (py_get ?v _ _) => unfold py_get; destruct v
      | |- emits_only _ (py_len ?v) => unfold py_len; destruct v
      | |- emits_only _ (py_truncate ?v _) => unfold py_truncate; destruct v
      | |- emits_only _ (if ?b then _ else _) => destruct b
      | |- emits_only _ (match ?o with Some _ => _ | None => _ end) => destruct o
      end ].

Lemma print_images_prints_only (L : PyLib) (imgs : list json) :
  forall i, emits_only is_print (print_images L i imgs).
Proof.
  induction imgs as [| img rest IH]; intros i; cbn [print_images].
  - apply emits_only_ret.
  - prints_only; apply IH.
Qed.

(** [print_response] emits nothing but printed lines. *)
Lemma print_response_emits_prints (L : PyLib) (c : OmniParseAPIClient)
    (response : dict) (n : Z) :
  emits_only is_print (print_response L c response n).
Proof.
  unfold print_response.
  destruct (negb (truthy (get_default response "success" JNull))).
  - prints_only.
  - destruct (get_default response "data" (JObj [])); prints_only;
      apply print_images_prints_only.
Qed.

(** X15. [print_response] only prints: whatever the response holds, and
    whether it returns or raises, it adds nothing to the trace but printed
    lines; it sends no request and touches no file. *)
Theorem print_response_only_prints (L : PyLib) (c : OmniParseAPIClient)
    (response : dict) (max_text_length : Z) (w : world unit) :
  exists lines,
    trace (snd (print_response L c response max_text_length w))
    = (trace w ++ map EPrint lines)%list.
Proof.
  destruct (print_response_emits_prints L c response max_text_length w)
    as (new & Htr & HP).
  rewrite Htr.
  clear Htr. induction new as [| ev new IH].
  - exists []. reflexivity.
  - cbn in HP. apply andb_prop in HP. destruct HP as [Hev Hnew].
    destruct (IH Hnew) as [lines Hl].
    destruct ev; try discriminate Hev.
    exists (line :: lines). cbn [map].
    apply app_inv_head in Hl. rewrite Hl. reflexivity.
Qed.

Lemma bind_emit {B : Type} (ev : event) (k : unit -> CM B) (w : world unit) :
  bind (emit ev) k w = k tt (mkWorld (heap w) (trace w ++ [ev])).
Proof. reflexivity. Qed.

Lemma bind_ret {A B : Type} (a : A) (k : A -> CM B) (w : world unit) :
  bind (ret a) k w = k a w.
Proof. reflexivity. Qed.

Lemma substring_length_le (n : nat) (s : string) :
  (String.length (substring 0 n s) <= n)%nat.
Proof.
  revert s. induction n as [| n IH]; intros [| a s]; cbn; try lia.
  specialize (IH s). lia.
Qed.

Lemma append_length (s t : string) :
  String.length (s ++ t) = (String.length s + String.length t)%nat.
Proof.
  induction s as [| a s IH]; cbn; [reflexivity | now rewrite IH].
Qed.

(** X16. For a successful response whose payload carries a non-empty
    string under "text", [print_response] prints the status line, the
    header with the length of the text, a rule, the text and a rule, in
    that order; the text is shown whole when it is at most
    [max_text_length] long and cut to its first [max_text_length]
    characters followed by "..." otherwise, so that (for a limit that is
    not negative) the shown text is never longer than the limit plus
    three. *)
Theorem long_text_is_truncated (L : PyLib) (c : OmniParseAPIClient)
    (response : dict) (n : Z) (w : world unit) (fields : dict) (s : string) :
  truthy (get_default response "success" JNull) = true ->
  dict_get response "data" = Some (JObj fields) ->
  dict_get fields "text" = Some (JStr s) ->
  s <> "" ->
  (exists rest,
      trace (snd (print_response L c response n w))
      = (trace w ++
         [EPrint ("[INFO] Status: " ++
                  format_value L (get_default response "status_code" (JStr "N/A")));
          EPrint (nl ++ "[TEXT] (length: " ++ str_of_nat (String.length s) ++ ")");
          EPrint (str_mul "-" 50);
          EPrint (shown_text s n);
          EPrint (str_mul "-" 50)] ++ rest)%list) /\
  ((0 <= n)%Z -> (String.length (shown_text s n) <= Z.to_nat n + 3)%nat).
Proof.
  intros Htrue Hdata Htext Hne. split.
  - unfold print_response. rewrite Htrue. cbn [negb].
    unfold get_default at 2 3. rewrite Hdata.
    unfold print. rewrite bind_emit.
    cbn [py_get].
    assert (Hg : get_default fields "text" (JStr "") = JStr s)
      by (unfold get_default; rewrite Htext; reflexivity).
    rewrite Hg. rewrite bind_ret.
    assert (Ht : truthy (JStr s) = true).
    { cbn [truthy]. destruct (String.eqb_spec s ""); [contradiction | reflexivity]. }
    rewrite Ht. cbn [py_len py_truncate format_value].
    match goal with
    | |- context [bind ?tb ?k ?W] =>
        assert (Htb : tb W
                      = (Returns tt,
                         mkWorld (heap W)
                           (trace W ++
                            [EPrint (nl ++ "[TEXT] (length: "
                                     ++ str_of_nat (String.length s) ++ ")");
                             EPrint (str_mul "-" 50);
                             EPrint (shown_text s n);
                             EPrint (str_mul "-" 50)])));
        [| assert (Hk : emits_only is_print (k tt));
           [| unfold bind at 1; rewrite Htb;
              destruct (Hk (mkWorld (heap W)
                           (trace W ++
                            [EPrint (nl ++ "[TEXT] (length: "
                                     ++ str_of_nat (String.length s) ++ ")");
                             EPrint (str_mul "-" 50);
                             EPrint (shown_text s n);
                             EPrint (str_mul "-" 50)])))
                as (rest & Hrest & _) ] ]
    end.
    + rewrite bind_ret, bind_emit, bind_emit, bind_ret. unfold shown_text.
      destruct (n <? Z.of_nat (String.length s))%Z.
      * unfold bind at 1. rewrite bind_ret. unfold emit. cbn [fst snd heap trace].
        repeat rewrite <- app_assoc. reflexivity.
      * unfold bind at 1. unfold emit. cbn [fst snd heap trace].
        repeat rewrite <- app_assoc. reflexivity.
    + prints_only. apply print_images_prints_only.
    + exists rest. rewrite Hrest. cbn [trace heap].
      repeat rewrite <- app_assoc. reflexivity.
  - intros Hn. unfold shown_text, str_prefix.
    destruct (Z.ltb_spec n (Z.of_nat (String.length s))) as [Hlt | Hge].
    + rewrite append_length. destruct (Z.leb_spec 0 n); [| lia].
      pose proof (substring_length_le (Z.to_nat n) s). cbn. lia.
    + lia.
Qed.

Lemma long_text_is_truncated_witness :
  (String.length (shown_text "abcdefgh" 5) <= Z.to_nat 5 + 3)%nat.
Proof.
  exact (proj2 (long_text_is_truncated posix_lib (new_client "localhost" 8000)
                  [("success", JBool true); ("status_code", JInt 200);
                   ("data", JObj [("text", JStr "abcdefgh")])]
                  5 start [("text", JStr "abcdefgh")] "abcdefgh"
                  eq_refl eq_refl eq_refl
                  (fun H : "abcdefgh" = "" => eq_ind "abcdefgh"
                     (fun s => match s with EmptyString => False | _ => True end)
                     I "" H))
           (fun H : (0 ?= 5)%Z = Gt =>
              eq_ind Lt (fun c => match c with Lt => True | _ => False end)
                I Gt H)).
Defined.

Lemma outside_effects_app (l1 l2 : list event) :
  outside_effects (l1 ++ l2) = (outside_effects l1 ++ outside_effects l2)%list.
Proof. apply filter_app. Qed.

Lemma outside_effects_prints (ps : list event) :
  forallb is_print ps = true -> outside_effects ps = [].
Proof.
  induction ps as [| ev ps IH]; cbn; [reflexivity |].
  intros H. apply andb_prop in H. destruct H as [Hev Hps].
  destruct ev; try discriminate Hev. cbn. apply IH, Hps.
Qed.

Lemma test_health_trace (E : Env) (c : OmniParseAPIClient) (w : world unit) :
  trace (snd (test_health E c w))
  = (trace w ++ [EHttp (mkRequest GET (base_url c ++ "/") None [] [] [] 5)])%list.
Proof.
  unfold_client; case_client; reflexivity.
Qed.

Lemma parse_website_trace (E : Env) (c : OmniParseAPIClient) (url : string)
    (w : world unit) :
  trace (snd (parse_website E c url w))
  = (trace w ++
     [EHttp (mkRequest POST (base_url c ++ "/parse_website/parse") None
               [] [("url", url)] [("accept", "application/json")] 60)])%list.
Proof.
  unfold_client; case_client; reflexivity.
Qed.

Lemma test_health_success (E : Env) (c : OmniParseAPIClient) (w : world unit)
    (d : dict) :
  fst (test_health E c w) = Returns d ->
  get_default d "success" (JBool false)
  = JBool (answered E (mkRequest GET (base_url c ++ "/") None [] [] [] 5) true).
Proof.
  unfold answered. unfold_client; case_client; intros H;
    try discriminate H; injection H as <-; reflexivity.
Qed.

Lemma parse_website_success (E : Env) (c : OmniParseAPIClient) (url : string)
    (w : world unit) (d : dict) :
  fst (parse_website E c url w) = Returns d ->
  get_default d "success" (JBool false)
  = JBool (answered E
             (mkRequest POST (base_url c ++ "/parse_website/parse") None
                [] [("url", url)] [("accept", "application/json")] 60) false).
Proof.
  unfold answered. unfold_client; case_client; intros H;
    try discriminate H; injection H as <-; reflexivity.
Qed.

Lemma create_sample_files_spec (L : PyLib) (E : Env) (output_dir : string)
    (w : world unit) :
  let text_file := path_join L output_dir "sample_document.txt" in
  create_sample_files L E output_dir w
  = match makedirs E output_dir with
    | Raises e => (Raises e, mkWorld (heap w) (trace w ++ [EMakedirs output_dir]))
    | Returns _ =>
        match write_text E text_file sample_text with
        | Raises e =>
            (Raises e,
             mkWorld (heap w)
               (trace w ++ [EMakedirs output_dir; EWrite text_file sample_text]))
        | Returns _ =>
            (Returns [("txt", JStr text_file)],
             mkWorld (heap w)
               (trace w ++ [EMakedirs output_dir; EWrite text_file sample_text]))
        end
    end.
Proof.
  cbv zeta. unfold create_sample_files, bind, emit, ret.
  cbn [fst snd heap trace dict_set].
  destruct (makedirs E output_dir); [| reflexivity].
  destruct (write_text E _ sample_text);
    repeat rewrite <- app_assoc; reflexivity.
Qed.

Lemma bind_unfold {A B : Type} (c : CM A) (k : A -> CM B) (w : world unit) :
  bind c k w
  = match c w with
    | (Returns a, w') => k a w'
    | (Raises e, w') => (Raises e, w')
    end.
Proof. reflexivity. Qed.

Ltac eval_literals :=
  repeat match goal with
         | |- context [in_tuple ?x ?l] =>
             let r := eval cbv [in_tuple existsb String.eqb Ascii.eqb Bool.eqb orb]
                      in (in_tuple x l) in
             change (in_tuple x l) with r
         | |- context [dict_set ?d ?k ?v] =>
             let r := eval cbv [dict_set String.eqb Ascii.eqb Bool.eqb]
                      in (dict_set d k v) in
             change (dict_set d k v) with r
         | |- context [dict_in ?k ?d] =>
             let r := eval cbv [dict_in dict_get String.eqb Ascii.eqb Bool.eqb]
                      in (dict_in k d) in
             change (dict_in k d) with r
         end.

Lemma bind_assoc {A B C : Type} (c : CM A) (k1 : A -> CM B) (k2 : B -> CM C)
    (w : world unit) :
  bind (bind c k1) k2 w = bind c (fun a => bind (k1 a) k2) w.
Proof.
  unfold bind. destruct (c w) as [[a | e] w1]; reflexivity.
Qed.

Ltac run_step L E c :=
  first
    [ rewrite bind_assoc
    | rewrite bind_emit; cbn [heap trace]
    | rewrite bind_ret
    | match goal with
      | |- context [bind (test_health E c) ?k ?W] =>
          let Htr := fresh "Htr" in
          let Hs := fresh "Hs" in
          let result := fresh "result" in
          let w1 := fresh "w" in
          pose proof (test_health_trace E c W) as Htr;
          pose proof (test_health_success E c W) as Hs;
          rewrite (bind_unfold (test_health E c) k W);
          destruct (test_health E c W) as [[result | ?] w1];
          cbn [fst snd heap trace] in Htr, Hs;
          [ rewrite (Hs result eq_refl); clear Hs | clear Hs ];
          destruct w1 as [[] ?]; cbn [heap trace] in Htr; subst
      | |- context [bind (parse_website E c ?u) ?k ?W] =>
          let Htr := fresh "Htr" in
          let Hs := fresh "Hs" in
          let result := fresh "result" in
          let w1 := fresh "w" in
          pose proof (parse_website_trace E c u W) as Htr;
          pose proof (parse_website_success E c u W) as Hs;
          rewrite (bind_unfold (parse_website E c u) k W);
          destruct (parse_website E c u W) as [[result | ?] w1];
          cbn [fst snd heap trace] in Htr, Hs;
          [ rewrite (Hs result eq_refl); clear Hs | clear Hs ];
          destruct w1 as [[] ?]; cbn [heap trace] in Htr; subst
      | |- context [bind (print_response L c ?r ?n) ?k ?W] =>
          let ps := fresh "ps" in
          let Hps := fresh "Hps" in
          let Hall := fresh "Hall" in
          let w1 := fresh "w" in
          destruct (print_response_emits_prints L c r n W) as (ps & Hps & Hall);
          rewrite (bind_unfold (print_response L c r n) k W);
          destruct (print_response L c r n W) as [[[] | ?] w1];
          cbn [fst snd heap trace] in Hps;
          destruct w1 as [[] ?]; cbn [heap trace] in Hps; subst
      | |- context [bind (create_sample_files L E ?d) ?k ?W] =>
          rewrite (bind_unfold (create_sample_files L E d) k W);
          rewrite (create_sample_files_spec L E d W); cbv zeta;
          destruct (makedirs E d);
          [ destruct (write_text E _ sample_text) | ]
      end ].

Ltac finish_run :=
  match goal with Q := _ |- _ => subst Q end;
  cbv beta;
  cbn [fst snd heap trace];
  repeat rewrite <- app_assoc;
  eexists; split; [reflexivity |];
  repeat rewrite outside_effects_app;
  repeat match goal with
         | H : forallb is_print ?ps = true |- _ =>
             rewrite (outside_effects_prints ps H)
         end;
  cbn [outside_effects filter negb is_quiet app];
  unfold planned_effects, planned_entries;
  repeat match goal with
         | H : String.eqb _ _ = false |- _ => rewrite H
         end;
  cbv [String.eqb Ascii.eqb Bool.eqb];
  split; [eexists; reflexivity |];
  split; [discriminate |];
  let H := fresh "H" in
  intros ? H; try discriminate H; injection H as <-; split; reflexivity.

Ltac run_all L E c :=
  repeat first
    [ progress eval_literals
    | run_step L E c
    | progress cbn [print_summary]
    | progress unfold print
    | progress cbv beta iota zeta ].

Lemma run_tests_spec (L : PyLib) (E : Env) (c : OmniParseAPIClient)
    (t : string) (w : world unit) :
  exists new,
    trace (snd (run_tests L E c t w)) = (trace w ++ new)%list /\
    (exists rest,
        (outside_effects new ++ rest)%list
        = EHttp (health_request c) :: planned_effects L c t) /\
    outside_effects new <> [] /\
    forall results,
      fst (run_tests L E c t w) = Returns results ->
      results = ("health", JBool (answered E (health_request c) true))
                :: planned_entries E c t /\
      outside_effects new = EHttp (health_request c) :: planned_effects L c t.
Proof.
  unfold health_request, website_request.
  pattern (run_tests L E c t w).
  match goal with |- ?Q0 _ => set (Q := Q0) end.
  unfold run_tests, sleep.
  destruct (String.eqb t "all") eqn:Eall;
    [apply String.eqb_eq in Eall; subst t |].
  { run_all L E c; finish_run. }
  destruct (String.eqb t "health") eqn:Ehealth;
    [apply String.eqb_eq in Ehealth; subst t |].
  { run_all L E c; finish_run. }
  destruct (String.eqb t "document") eqn:Edoc;
    [apply String.eqb_eq in Edoc; subst t |].
  { run_all L E c; finish_run. }
  destruct (String.eqb t "image") eqn:Eimg;
    [apply String.eqb_eq in Eimg; subst t |].
  { run_all L E c; finish_run. }
  destruct (String.eqb t "media") eqn:Emed;
    [apply String.eqb_eq in Emed; subst t |].
  { run_all L E c; finish_run. }
  destruct (String.eqb t "website") eqn:Eweb;
    [apply String.eqb_eq in Eweb; subst t |].
  { run_all L E c; finish_run. }
  unfold in_tuple. cbn [existsb].
  rewrite Eall, Ehealth, Edoc, Eimg, Emed, Eweb. cbn [orb].
  run_all L E c; finish_run.
Qed.

(** X17. Whenever [run_tests] returns, its dictionary starts with the
    ["health"] entry and holds at most one more: for "document", "image"
    and "media" the placeholder entry of that category, always [False];
    for "website" the entry of the website call; for every other test
    type (unknown strings included) nothing else. *)
Theorem run_tests_results_by_type (L : PyLib) (E : Env) (c : OmniParseAPIClient)
    (t : string) (w : world unit) (results : dict) :
  fst (run_tests L E c t w) = Returns results ->
  exists h,
    (t = "document" ->
     results = [("health", JBool h); ("parse_document", JBool false)]) /\
    (t = "image" ->
     results = [("health", JBool h); ("parse_image", JBool false)]) /\
    (t = "media" ->
     results = [("health", JBool h); ("parse_media", JBool false)]) /\
    (t = "website" ->
     exists b, results = [("health", JBool h); ("parse_website", JBool b)]) /\
    (t <> "document" -> t <> "image" -> t <> "media" -> t <> "website" ->
     results = [("health", JBool h)]).
Proof.
  intros Hret.
  destruct (run_tests_spec L E c t w) as (new & _ & _ & _ & Hres).
  destruct (Hres results Hret) as [-> _].
  exists (answered E (health_request c) true).
  unfold planned_entries.
  repeat split.
  - intros ->. reflexivity.
  - intros ->. reflexivity.
  - intros ->. reflexivity.
  - intros ->. eexists. reflexivity.
  - intros Hd Hi Hm Hw.
    apply String.eqb_neq in Hd, Hi, Hm, Hw. rewrite Hd, Hi, Hm, Hw. reflexivity.
Qed.

Lemma run_tests_results_by_type_witness :
  exists h,
    [("health", JBool false); ("parse_document", JBool false)]
    = [("health", JBool h); ("parse_document", JBool false)].
Proof.
  destruct (run_tests_results_by_type posix_lib env_offline
              (new_client "localhost" 8000) "document" start
              [("health", JBool false); ("parse_document", JBool false)]
              eq_refl) as (h & Hdoc & _).
  exists h. exact (Hdoc eq_refl).
Defined.

(** X18. In the dictionary [run_tests] returns, ["health"] is a boolean,
    and it is [True] exactly when the health request got a response whose
    body was empty or decoded as JSON, whatever the status code. *)
Theorem health_entry_reflects_the_check (L : PyLib) (E : Env)
    (c : OmniParseAPIClient) (t : string) (w : world unit) (results : dict) :
  fst (run_tests L E c t w) = Returns results ->
  (dict_get results "health" = Some (JBool true) <->
   exists r,
     http E (mkRequest GET (base_url c ++ "/") None [] [] [] 5) = Returns r /\
     (text r = "" \/ exists v, json_body r = Returns v)) /\
  (dict_get results "health" = Some (JBool true) \/
   dict_get results "health" = Some (JBool false)).
Proof.
  intros Hret.
  destruct (run_tests_spec L E c t w) as (new & _ & _ & _ & Hres).
  destruct (Hres results Hret) as [-> _].
  cbn [dict_get]. change (String.eqb "health" "health") with true. cbv iota.
  unfold answered, health_request.
  destruct (http E _) as [r | e].
  - cbn [andb]. destruct (String.eqb_spec (text r) "") as [Ht | Ht]; cbv iota.
    + split; [| now left]. split; [| reflexivity].
      intros _. exists r. auto.
    + destruct (json_body r) as [v | e] eqn:Hj; cbv iota.
      * split; [| now left]. split; [| reflexivity].
        intros _. exists r. split; [reflexivity |]. right. now exists v.
      * split; [| now right]. split; [discriminate |].
        intros (r' & Hr & [Ht' | [v Hv]]); injection Hr as <-;
          [contradiction | congruence].
  - split; [| now right]. split; [discriminate |].
    intros (r & Hr & _). discriminate.
Qed.

(** X19. Printing and sleeping apart, [run_tests] does this and nothing
    else: the health request first, always; then, for "document", the
    creation of /tmp/omniparse_test and the writing of the sample file,
    for "website" the request for https://example.com, for any other type
    nothing.  A run that fails on the way has done a prefix of that; a run
    that returns has done all of it.  No file is ever uploaded. *)
Theorem run_tests_outside_effects (L : PyLib) (E : Env) (c : OmniParseAPIClient)
    (t : string) (w : world unit) :
  exists new,
    trace (snd (run_tests L E c t w)) = (trace w ++ new)%list /\
    (exists rest,
        (outside_effects new ++ rest)%list
        = EHttp (health_request c) :: planned_effects L c t) /\
    outside_effects new <> [] /\
    (forall results,
        fst (run_tests L E c t w) = Returns results ->
        outside_effects new = EHttp (health_request c) :: planned_effects L c t).
Proof.
  destruct (run_tests_spec L E c t w) as (new & Htr & Hpre & Hne & Hres).
  exists new. repeat split; try assumption.
  intros results Hret. apply (Hres results Hret).
Qed.

Lemma health_entry_reflects_the_check_witness :
  dict_get [("health", JBool true)] "health" = Some (JBool true) <->
  exists r,
    http (env_online 200 (JObj [])) (mkRequest GET "http://localhost:8000/" None [] [] [] 5)
    = Returns r /\
    (text r = "" \/ exists v, json_body r = Returns v).
Proof.
  exact (proj1 (health_entry_reflects_the_check posix_lib (env_online 200 (JObj []))
                  (new_client "localhost" 8000) "health" start
                  [("health", JBool true)] eq_refl)).
Defined.

Lemma run_tests_outside_effects_witness :
  exists new,
    trace (snd (run_tests posix_lib env_offline (new_client "localhost" 8000)
                  "website" start)) = (trace start ++ new)%list /\
    outside_effects new
    = [EHttp (health_request (new_client "localhost" 8000));
       EHttp (website_request (new_client "localhost" 8000) "https://example.com")].
Proof.
  destruct (run_tests_outside_effects posix_lib env_offline
              (new_client "localhost" 8000) "website" start)
    as (new & Htr & _ & _ & Hall).
  exists new. split; [exact Htr |].
  exact (Hall [("health", JBool false); ("parse_website", JBool false)] eq_refl).
Defined.

(** X20. The arguments [main] does not look at: with [--file] given (not
    empty), [--url] and [--test] change nothing; with [--url] given and no
    [--file], [--test] changes nothing. *)
Theorem file_takes_precedence (L : PyLib) (E : Env) (a : Args) (w : world unit)
    (test : string) (url : option string) :
  (given (arg_file a) = true ->
   main L E (mkArgs (arg_host a) (arg_port a) test (arg_file a) url
               (arg_task a) (arg_output a)) w
   = main L E a w) /\
  (given (arg_file a) = false -> given (arg_url a) = true ->
   main L E (mkArgs (arg_host a) (arg_port a) test (arg_file a) (arg_url a)
               (arg_task a) (arg_output a)) w
   = main L E a w).
Proof.
  split.
  - intros Hfile. unfold main. cbn [arg_host arg_port arg_file arg_task arg_output].
    rewrite Hfile. reflexivity.
  - intros Hfile Hurl. unfold main.
    cbn [arg_host arg_port arg_file arg_url arg_task arg_output].
    rewrite Hfile, Hurl. reflexivity.
Qed.

Lemma file_takes_precedence_witness :
  main posix_lib env_offline
    (mkArgs "localhost" 8000 "health" (Some "a.pdf") (Some "https://example.com")
       "Caption" "summary") start
  = main posix_lib env_offline (with_file default_args "a.pdf") start.
Proof.
  exact (proj1 (file_takes_precedence posix_lib env_offline
                  (with_file default_args "a.pdf") start "health"
                  (Some "https://example.com")) eq_refl).
Defined.

(** X21. [main] on a [--file] with a recognized extension that does not
    exist sends nothing: it prints the one line "[ERROR] File not found:
    <path>" (or, with [--output json], the JSON of the failure result) and
    ends normally, with exit status 0. *)
Theorem missing_file_exits_normally (L : PyLib) (E : Env) (a : Args)
    (w : world unit) (f : string) :
  arg_file a = Some f ->
  f <> "" ->
  in_tuple (file_ext L f)
    (document_exts ++ image_exts ++ audio_exts ++ video_exts) = true ->
  path_exists E f = false ->
  main L E a w
  = (Returns tt,
     mkWorld (heap w)
       (trace w ++
        [EPrint (if String.eqb (arg_output a) "json"
                 then json_dumps L
                        (JObj [("success", JBool false);
                               ("error", JStr ("File not found: " ++ f))])
                 else "[ERROR] File not found: " ++ f)])) /\
  exit_status (fst (main L E a w)) = 0%Z.
Proof.
  intros Hf Hne Hext Hmissing. apply given_Some in Hne.
  assert (Hrun : main L E a w
                 = (Returns tt,
                    mkWorld (heap w)
                      (trace w ++
                       [EPrint (if String.eqb (arg_output a) "json"
                                then json_dumps L
                                       (JObj [("success", JBool false);
                                              ("error", JStr ("File not found: " ++ f))])
                                else "[ERROR] File not found: " ++ f)]))).
  { unfold in_tuple in Hext. repeat rewrite existsb_app in Hext.
    destruct (ext_lists_disjoint (file_ext L f)) as (Himg & Haud & Hvid).
    unfold in_tuple in Himg, Haud, Hvid.
    unfold main. rewrite Hf, Hne. cbn [unwrap]. unfold in_tuple.
    destruct (existsb (String.eqb (file_ext L f)) document_exts) eqn:Hd.
    - unfold parse_document, output_result, bind, ret. rewrite Hmissing.
      cbn [negb]. destruct (String.eqb (arg_output a) "json"); reflexivity.
    - destruct (existsb (String.eqb (file_ext L f)) image_exts) eqn:Hi.
      + unfold process_image, output_result, bind, ret. rewrite Hmissing.
        cbn [negb]. destruct (String.eqb (arg_output a) "json"); reflexivity.
      + destruct (existsb (String.eqb (file_ext L f)) audio_exts) eqn:Ha.
        * unfold parse_media_audio, output_result, bind, ret. rewrite Hmissing.
          cbn [negb]. destruct (String.eqb (arg_output a) "json"); reflexivity.
        * cbn [orb] in Hext. rewrite Hext.
          unfold parse_media_video, output_result, bind, ret. rewrite Hmissing.
          cbn [negb]. destruct (String.eqb (arg_output a) "json"); reflexivity. }
  rewrite Hrun. split; reflexivity.
Qed.

Lemma missing_file_exits_normally_witness :
  main posix_lib env_offline (with_file default_args "talk.MP4") start
  = (Returns tt, mkWorld tt [EPrint "[ERROR] File not found: talk.MP4"]) /\
  exit_status (fst (main posix_lib env_offline
                      (with_file default_args "talk.MP4") start)) = 0%Z.
Proof.
  exact (missing_file_exits_normally posix_lib env_offline
           (with_file default_args "talk.MP4") start "talk.MP4" eq_refl
           (fun H : "talk.MP4" = "" => eq_ind "talk.MP4"
              (fun s => match s with EmptyString => False | _ => True end)
              I "" H)
           eq_refl eq_refl).
Defined.

(** X22. In suite mode (neither [--file] nor [--url] given) [main] returns
    whenever [run_tests] returns and raises what [run_tests] raises: the
    exit status is 0 whatever the results, failed checks included. *)
Theorem suite_exit_status_ignores_results (L : PyLib) (E : Env) (a : Args)
    (w : world unit) :
  given (arg_file a) = false ->
  given (arg_url a) = false ->
  fst (main L E a w)
  = match fst (run_tests L E (new_client (arg_host a) (arg_port a)) (arg_test a) w) with
    | Returns _ => Returns tt
    | Raises e => Raises e
    end /\
  (forall results,
      fst (run_tests L E (new_client (arg_host a) (arg_port a)) (arg_test a) w)
      = Returns results ->
      exit_status (fst (main L E a w)) = 0%Z).
Proof.
  intros Hfile Hurl.
  assert (Hmain : fst (main L E a w)
                  = match fst (run_tests L E (new_client (arg_host a) (arg_port a))
                                 (arg_test a) w) with
                    | Returns _ => Returns tt
                    | Raises e => Raises e
                    end).
  { unfold main. rewrite Hfile, Hurl. rewrite bind_unfold.
    destruct (run_tests L E _ (arg_test a) w) as [[results | e] w1];
      cbn [fst snd]; [| reflexivity].
    destruct (String.eqb (arg_output a) "json"); reflexivity. }
  split; [exact Hmain |].
  intros results Hret. rewrite Hmain, Hret. reflexivity.
Qed.

Lemma suite_exit_status_ignores_results_witness :
  exit_status (fst (main posix_lib env_offline default_args start)) = 0%Z.
Proof.
  exact (proj2 (suite_exit_status_ignores_results posix_lib env_offline
                  default_args start eq_refl eq_refl)
           [("health", JBool false)] eq_refl).
Defined.


